(** * gorm-plus: a generic repository over GORM, embedded in Rocq

    Shallow embedding of [gorm_plus.go].  The relational-mapping library
    (GORM) is an external collaborator: its query builder is modelled by the
    sequence of builder calls made on a handle, and its executing primitives
    ([First], [Find], [Count], [Update], ...) by one function [exec] that the
    development is parameterised over.  Repository operations run in a state
    monad over the backing store and the log of collaborator calls.
    [Transact] only forwards to the collaborator's transaction primitive and
    is not embedded. *)

From Stdlib Require Import ZArith List String Bool Lia.
From ExtLib Require Import Structures.Monad Data.Monads.StateMonad.
Import ListNotations.
Import MonadNotation.
Local Open Scope string_scope.
Local Open Scope list_scope.
Local Open Scope monad_scope.
Local Open Scope Z_scope.
Set Warnings "-register-all".

(* ===================================================================== *)
(** ** Go's [int] on 64-bit platforms: two's complement, arithmetic wraps
       around *)
(* ===================================================================== *)

Module GoInt.

Definition int_bits : Z := 64.
Definition int_modulus : Z := 2 ^ int_bits.
Definition max_int : Z := 2 ^ (int_bits - 1) - 1.
Definition min_int : Z := - 2 ^ (int_bits - 1).

(** The value an [int] holds after an operation whose exact result is [z]. *)
Definition wrap (z : Z) : Z :=
  (z + 2 ^ (int_bits - 1)) mod int_modulus - 2 ^ (int_bits - 1).

Definition in_range (z : Z) : Prop := min_int <= z <= max_int.

Definition sub (a b : Z) : Z := wrap (a - b).
Definition mul (a b : Z) : Z := wrap (a * b).

End GoInt.

(* ===================================================================== *)
(** ** Go [error] values *)
(* ===================================================================== *)

(** An [error] is a sentinel created by [errors.New] (compared by identity)
    or an error wrapping another one ([fmt.Errorf] with [%w]). *)
Inductive error : Type :=
  | ErrInvalidType          (* "generic type must be a struct type" *)
  | ErrNotFound             (* "not found" *)
  | ErrTxRequired           (* "tx is required" *)
  | ErrDangerous            (* "dangerous operation is prohibited" *)
  | ErrRecordNotFound       (* gorm.ErrRecordNotFound *)
  | ErrMissingWhereClause   (* gorm.ErrMissingWhereClause *)
  | ErrOther (msg : string) (* any other sentinel of the collaborator or driver *)
  | ErrWrap (msg : string) (inner : error).

Definition error_Error (e : error) : string :=
  match e with
  | ErrInvalidType => "generic type must be a struct type"
  | ErrNotFound => "not found"
  | ErrTxRequired => "tx is required"
  | ErrDangerous => "dangerous operation is prohibited"
  | ErrRecordNotFound => "record not found"
  | ErrMissingWhereClause => "WHERE conditions required"
  | ErrOther msg => msg
  | ErrWrap msg _ => msg
  end.

Fixpoint error_eqb (a b : error) : bool :=
  match a, b with
  | ErrInvalidType, ErrInvalidType => true
  | ErrNotFound, ErrNotFound => true
  | ErrTxRequired, ErrTxRequired => true
  | ErrDangerous, ErrDangerous => true
  | ErrRecordNotFound, ErrRecordNotFound => true
  | ErrMissingWhereClause, ErrMissingWhereClause => true
  | ErrOther m, ErrOther n => String.eqb m n
  | ErrWrap m x, ErrWrap n y => String.eqb m n && error_eqb x y
  | _, _ => false
  end.

(** [errors.Is]: walk the chain of wrapped errors looking for [target]. *)
Fixpoint errors_Is (err target : error) : bool :=
  error_eqb err target
  || match err with
     | ErrWrap _ inner => errors_Is inner target
     | _ => false
     end.

(* ===================================================================== *)
(** ** The part of [reflect] that [NewRepo] uses *)
(* ===================================================================== *)

Module Reflect.

Inductive Kind : Type :=
  | Invalid | Bool | Int | Int8 | Int16 | Int32 | Int64
  | Uint | Uint8 | Uint16 | Uint32 | Uint64 | Uintptr
  | Float32 | Float64 | Complex64 | Complex128
  | Array | Chan | Func | Interface | Map | Pointer | Slice
  | String | Struct | UnsafePointer.

Definition Kind_eqb (a b : Kind) : bool :=
  match a, b with
  | Invalid, Invalid | Bool, Bool | Int, Int | Int8, Int8 | Int16, Int16
  | Int32, Int32 | Int64, Int64 | Uint, Uint | Uint8, Uint8
  | Uint16, Uint16 | Uint32, Uint32 | Uint64, Uint64 | Uintptr, Uintptr
  | Float32, Float32 | Float64, Float64 | Complex64, Complex64
  | Complex128, Complex128 | Array, Array | Chan, Chan | Func, Func
  | Interface, Interface | Map, Map | Pointer, Pointer | Slice, Slice
  | String, String | Struct, Struct | UnsafePointer, UnsafePointer => true
  | _, _ => false
  end.

(** Predeclared non-composite types. *)
Inductive Basic : Type :=
  | bool_t | int_t | int8_t | int16_t | int32_t | int64_t
  | uint_t | uint8_t | uint16_t | uint32_t | uint64_t | uintptr_t
  | float32_t | float64_t | complex64_t | complex128_t
  | string_t | unsafe_pointer_t.

Definition basic_kind (b : Basic) : Kind :=
  match b with
  | bool_t => Bool | int_t => Int | int8_t => Int8 | int16_t => Int16
  | int32_t => Int32 | int64_t => Int64 | uint_t => Uint | uint8_t => Uint8
  | uint16_t => Uint16 | uint32_t => Uint32 | uint64_t => Uint64
  | uintptr_t => Uintptr | float32_t => Float32 | float64_t => Float64
  | complex64_t => Complex64 | complex128_t => Complex128
  | string_t => String | unsafe_pointer_t => UnsafePointer
  end.

(** The Go types a type parameter [T any] can be instantiated with. *)
Inductive GoType : Type :=
  | TBasic (b : Basic)                             (* bool, int, string, ... *)
  | TNamed (name : string) (underlying : GoType)   (* type N U *)
  | TPointer (elem : GoType)
  | TStruct (fields : list (string * GoType))
  | TInterface (methods : list string)             (* any = interface{} *)
  | TSlice (elem : GoType)
  | TArray (len : Z) (elem : GoType)
  | TMap (key elem : GoType)
  | TChan (elem : GoType)
  | TFunc (params results : list GoType).

Definition any : GoType := TInterface [].

Fixpoint kind (t : GoType) : Kind :=
  match t with
  | TBasic b => basic_kind b
  | TNamed _ u => kind u
  | TPointer _ => Pointer
  | TStruct _ => Struct
  | TInterface _ => Interface
  | TSlice _ => Slice
  | TArray _ _ => Array
  | TMap _ _ => Map
  | TChan _ => Chan
  | TFunc _ _ => Func
  end.

(** [reflect.TypeOf(zero)] for [var zero T]: the dynamic type of the value
    boxed into [any].  The zero value of an interface type is the nil
    interface, whose reflected type is the nil [reflect.Type]. *)
Definition TypeOf_zero (T : GoType) : option GoType :=
  match kind T with
  | Interface => None
  | _ => Some T
  end.

End Reflect.

(** What a Go call does: it returns, or it panics. *)
Inductive Outcome (A : Type) : Type :=
  | Returns (a : A)
  | Panics (msg : string).
Arguments Returns {A} a.
Arguments Panics {A} msg.

Definition nil_dereference : string :=
  "runtime error: invalid memory address or nil pointer dereference".

(** [t.Kind()] on a [reflect.Type] that may be nil. *)
Definition Type_Kind (t : option Reflect.GoType) : Outcome Reflect.Kind :=
  match t with
  | Some ty => Returns (Reflect.kind ty)
  | None => Panics nil_dereference
  end.

Definition obind {A B : Type} (o : Outcome A) (k : A -> Outcome B) : Outcome B :=
  match o with
  | Returns a => k a
  | Panics msg => Panics msg
  end.

(* ===================================================================== *)
(** ** The collaborator's query builder *)
(* ===================================================================== *)

Module Gorm.

(** Values passed as [any]: conditions, their arguments, column values. *)
Inductive Atom : Type :=
  | VNil
  | VBool (b : bool)
  | VInt (z : Z)
  | VString (s : string).

Inductive Any : Type :=
  | AAtom (a : Atom)
  | AMap (m : list (string * Atom))                        (* map[string]any *)
  | AStruct (name : string) (fields : list (string * Atom)).

(** [context.Context] is opaque to the repository; it is only forwarded. *)
Inductive Context : Type :=
  | Ctx (id : nat).

(** One chainable builder call. *)
Inductive Clause : Type :=
  | CWhere (query : Any) (args : list Any)
  | COrder (value : string)
  | CSelect (cols : list string)
  | CLimit (n : Z)
  | COffset (n : Z)
  | CUnscoped
  | CLocking (strength : string).

(** A gorm.DB pointer: the connection or transaction it is bound to, the
    context and model set on it and the builder calls chained so far, oldest
    first. *)
Record DB : Type := mkDB {
  handle : nat;
  context : option Context;
  model : option Reflect.GoType;
  chain : list Clause
}.

Definition chained (d : DB) (c : Clause) : DB :=
  {| handle := handle d; context := context d; model := model d;
     chain := chain d ++ [c] |}.

(** [db.Session(&gorm.Session{NewDB: false})]: a handle of its own that
    keeps the conditions already on [db]. *)
Definition Session (d : DB) : DB := d.

Definition WithContext (d : DB) (ctx : Context) : DB :=
  {| handle := handle d; context := Some ctx; model := model d;
     chain := chain d |}.

Definition Model (d : DB) (T : Reflect.GoType) : DB :=
  {| handle := handle d; context := context d; model := Some T;
     chain := chain d |}.

Definition Where (d : DB) (query : Any) (args : list Any) : DB :=
  chained d (CWhere query args).
Definition Order (d : DB) (value : string) : DB := chained d (COrder value).
Definition Select (d : DB) (cols : list string) : DB := chained d (CSelect cols).
Definition Limit (d : DB) (n : Z) : DB := chained d (CLimit n).
Definition Offset (d : DB) (n : Z) : DB := chained d (COffset n).
Definition Unscoped (d : DB) : DB := chained d CUnscoped.
Definition Clauses_Locking (d : DB) (strength : string) : DB :=
  chained d (CLocking strength).

End Gorm.

(** The [Scope] func type, from a gorm.DB pointer to a gorm.DB pointer; a
    func value may be nil. *)
Definition Scope : Type := option (Gorm.DB -> Gorm.DB).

Definition Where (query : Gorm.Any) (args : list Gorm.Any) : Scope :=
  Some (fun d => Gorm.Where d query args).

Definition WhereEq (m : list (string * Gorm.Atom)) : Scope :=
  Some (fun d => Gorm.Where d (Gorm.AMap m) []).

Definition Order (order : string) : Scope :=
  Some (fun d => Gorm.Order d order).

Definition Select (cols : list string) : Scope :=
  Some (fun d => Gorm.Select d cols).

Definition Limit (n : Z) : Scope :=
  Some (fun d => Gorm.Limit d n).

Definition Offset (n : Z) : Scope :=
  Some (fun d => Gorm.Offset d n).

Definition WithDeleted : Scope :=
  Some (fun d => Gorm.Unscoped d).

Definition OnlyDeleted : Scope :=
  Some (fun d =>
          Gorm.Where (Gorm.Unscoped d)
            (Gorm.AAtom (Gorm.VString "deleted_at IS NOT NULL")) []).

(** The scope [FirstForUpdate] and [FindForUpdate] append. *)
Definition for_update : Scope :=
  Some (fun d => Gorm.Clauses_Locking d "UPDATE").

(** [type Repo[T any] struct { db *gorm.DB }], with the type argument. *)
Record Repo : Type := mkRepo {
  entity : Reflect.GoType;
  db : Gorm.DB
}.

(** [db.Session(...)] on a handle pointer that may be nil: the method reads
    through its receiver, so a nil handle panics. *)
Definition db_Session (d : option Gorm.DB) : Outcome Gorm.DB :=
  match d with
  | Some h => Returns (Gorm.Session h)
  | None => Panics nil_dereference
  end.

(** [NewRepo[T](db)]: the repository pointer and the error it returns, or a
    panic.  The handle [db] is a pointer and may be nil. *)
Definition NewRepo (T : Reflect.GoType) (d : option Gorm.DB)
  : Outcome (option Repo * option error) :=
  let t := Reflect.TypeOf_zero T in
  obind (Type_Kind t) (fun k =>
  if Reflect.Kind_eqb k Reflect.Pointer then Returns (None, Some ErrInvalidType)
  else
  obind (Type_Kind t) (fun k' =>
  if negb (Reflect.Kind_eqb k' Reflect.Struct) then Returns (None, Some ErrInvalidType)
  else
  obind (db_Session d) (fun session =>
  Returns (Some {| entity := T; db := session |}, None)))).

(** The loop of [sc] and [scWithTX]: [for _, s := range scopes]. *)
Fixpoint apply_scopes (q : Gorm.DB) (scopes : list Scope) : Gorm.DB :=
  match scopes with
  | [] => q
  | s :: rest =>
      apply_scopes (match s with Some f => f q | None => q end) rest
  end.

Definition sc (r : Repo) (ctx : Gorm.Context) (scopes : list Scope) : Gorm.DB :=
  apply_scopes (Gorm.Model (Gorm.WithContext (db r) ctx) (entity r)) scopes.

Definition scWithTX (r : Repo) (tx : option Gorm.DB) (ctx : Gorm.Context)
    (scopes : list Scope) : Gorm.DB :=
  let d := match tx with None => db r | Some t => t end in
  apply_scopes (Gorm.Model (Gorm.WithContext d ctx) (entity r)) scopes.

(** [PageResult[T]]; the fields live in a module of their own because [Page]
    is also the name of the operation. *)
Module PageResult.
Record t (T : Type) : Type := mk {
  Items : list T;
  Total : Z;
  Page : Z;
  PageSize : Z;
  HasNext : bool
}.
Arguments mk {T} _ _ _ _ _.
Arguments Items {T} _.
Arguments Total {T} _.
Arguments Page {T} _.
Arguments PageSize {T} _.
Arguments HasNext {T} _.

(** The composite literal [PageResult[T]{}]. *)
Definition zero {T : Type} : t T :=
  {| Items := []; Total := 0; Page := 0; PageSize := 0; HasNext := false |}.
End PageResult.

(* ===================================================================== *)
(** ** Repository operations *)
(* ===================================================================== *)

Section Repository.

(** Values of the entity type [T], with its zero value; the backing store. *)
Variable T : Type.
Variable zero : T.
Variable Store : Type.

(** The collaborator's executing primitives. *)
Inductive Finisher : Type :=
  | db_Create (ent : T)
  | db_Save (ent : T)
  | db_Update (column : string) (value : Gorm.Any)
  | db_Updates (values : Gorm.Any)
  | db_Delete
  | db_CreateInBatches (ents : list T) (batchSize : Z)
  | db_First
  | db_Find
  | db_Count.

(** One collaborator call: the query built so far and the primitive run on it. *)
Definition Call : Type := (Gorm.DB * Finisher)%type.

(** What a primitive leaves behind: the [Error] field of the handle it
    returns, the rows written through the destination pointer of
    [First]/[Find] and the number written through the one of [Count]. *)
Record Response : Type := mkResponse {
  Error : option error;
  dest_rows : list T;
  dest_count : Z
}.

Variable exec : Call -> Store -> Response * Store.

(** The store and the collaborator calls made so far, oldest first. *)
Record World : Type := mkWorld {
  store : Store;
  calls : list Call
}.

Definition M : Type -> Type := state World.

Definition invoke (q : Gorm.DB) (f : Finisher) : M Response :=
  mkState (fun w =>
    let (resp, s') := exec (q, f) (store w) in
    (resp, {| store := s'; calls := calls w ++ [(q, f)] |})).

Definition len {A : Type} (l : list A) : Z := Z.of_nat (List.length l).

Definition default_db (r : Repo) (tx : option Gorm.DB) : Gorm.DB :=
  match tx with
  | Some t => t
  | None => db r
  end.

Definition Create (r : Repo) (ctx : Gorm.Context) (tx : option Gorm.DB)
    (ent : T) : M (option error) :=
  resp <- invoke (Gorm.WithContext (default_db r tx) ctx) (db_Create ent) ;;
  ret (Error resp).

Definition Update (r : Repo) (ctx : Gorm.Context) (tx : option Gorm.DB)
    (ent : T) : M (option error) :=
  resp <- invoke (Gorm.WithContext (default_db r tx) ctx) (db_Save ent) ;;
  ret (Error resp).

Definition UpdateColumn (r : Repo) (ctx : Gorm.Context) (tx : option Gorm.DB)
    (column : string) (value : Gorm.Any) (scopes : list Scope)
  : M (option error) :=
  if len scopes =? 0 then ret (Some ErrDangerous)
  else
    resp <- invoke (scWithTX r tx ctx scopes) (db_Update column value) ;;
    ret (Error resp).

Definition UpdateColumns (r : Repo) (ctx : Gorm.Context) (tx : option Gorm.DB)
    (updates : Gorm.Any) (scopes : list Scope) : M (option error) :=
  if len scopes =? 0 then ret (Some ErrDangerous)
  else
    resp <- invoke (scWithTX r tx ctx scopes) (db_Updates updates) ;;
    ret (Error resp).

Definition Delete (r : Repo) (ctx : Gorm.Context) (tx : option Gorm.DB)
    (scopes : list Scope) : M (option error) :=
  if len scopes =? 0 then ret (Some ErrDangerous)
  else
    resp <- invoke (scWithTX r tx ctx scopes) db_Delete ;;
    ret (Error resp).

(** [batchSize ...int] is the list of the optional arguments. *)
Definition BatchInsert (r : Repo) (ctx : Gorm.Context) (tx : option Gorm.DB)
    (ents : list T) (batchSize : list Z) : M (option error) :=
  if len ents =? 0 then ret None
  else
    let d := default_db r tx in
    let size := 1000 in
    let size := match batchSize with
                | b0 :: _ => b0
                | [] => size
                end in
    let size := if size =? 0 then 1000 else size in
    resp <- invoke (Gorm.WithContext d ctx) (db_CreateInBatches ents size) ;;
    ret (Error resp).

(** What [First(&out)] leaves in [out], which starts as the zero value. *)
Definition first_dest (resp : Response) : T := hd zero (dest_rows resp).

Definition First (r : Repo) (ctx : Gorm.Context) (scopes : list Scope)
  : M (T * option error) :=
  resp <- invoke (sc r ctx scopes) db_First ;;
  let out := first_dest resp in
  match Error resp with
  | Some err =>
      if errors_Is err ErrRecordNotFound then ret (out, Some ErrNotFound)
      else ret (out, Some err)
  | None => ret (out, None)
  end.

Definition List (r : Repo) (ctx : Gorm.Context) (scopes : list Scope)
  : M (list T * option error) :=
  resp <- invoke (sc r ctx scopes) db_Find ;;
  match Error resp with
  | Some err => ret ([], Some err)
  | None => ret (dest_rows resp, None)
  end.

Definition Count (r : Repo) (ctx : Gorm.Context) (scopes : list Scope)
  : M (Z * option error) :=
  resp <- invoke (sc r ctx scopes) db_Count ;;
  match Error resp with
  | Some err => ret (0, Some err)
  | None => ret (dest_count resp, None)
  end.

Definition Exists (r : Repo) (ctx : Gorm.Context) (scopes : list Scope)
  : M (bool * option error) :=
  resp <- invoke (Gorm.Limit (sc r ctx scopes) 1) db_Count ;;
  match Error resp with
  | Some err => ret (false, Some err)
  | None => ret (dest_count resp >? 0, None)
  end.

Definition FirstForUpdate (r : Repo) (ctx : Gorm.Context)
    (tx : option Gorm.DB) (scopes : list Scope) : M (T * option error) :=
  match tx with
  | None => ret (zero, Some ErrTxRequired)
  | Some _ =>
      let scopes := scopes ++ [for_update] in
      resp <- invoke (scWithTX r tx ctx scopes) db_First ;;
      let v := first_dest resp in
      match Error resp with
      | Some err =>
          if errors_Is err ErrRecordNotFound then ret (zero, Some ErrNotFound)
          else ret (zero, Some err)
      | None => ret (v, None)
      end
  end.

Definition FindForUpdate (r : Repo) (ctx : Gorm.Context)
    (tx : option Gorm.DB) (scopes : list Scope) : M (list T * option error) :=
  match tx with
  | None => ret ([], Some ErrTxRequired)
  | Some _ =>
      let scopes := scopes ++ [for_update] in
      resp <- invoke (scWithTX r tx ctx scopes) db_Find ;;
      match Error resp with
      | Some err => ret ([], Some err)
      | None => ret (dest_rows resp, None)
      end
  end.

Definition Page (r : Repo) (ctx : Gorm.Context) (page pageSize : Z)
    (scopes : list Scope) : M (PageResult.t T * option error) :=
  let page := if page <=? 0 then 1 else page in
  let pageSize := if pageSize <=? 0 then 20 else pageSize in
  let pageSize := if pageSize >? 1000 then 1000 else pageSize in
  '(total, err) <- Count r ctx scopes ;;
  match err with
  | Some e => ret (PageResult.zero, Some e)
  | None =>
      let offset := GoInt.mul (GoInt.sub page 1) pageSize in
      let q := scopes ++ [Limit pageSize; Offset offset] in
      resp <- invoke (sc r ctx q) db_Find ;;
      match Error resp with
      | Some e => ret (PageResult.zero, Some e)
      | None =>
          ret ({| PageResult.Items := dest_rows resp;
                  PageResult.Total := total;
                  PageResult.Page := page;
                  PageResult.PageSize := pageSize;
                  PageResult.HasNext := GoInt.mul page pageSize <? total |},
               None)
      end
  end.

(** What the collaborator answers to a call made in world [w], and the world
    that call leaves. *)
Definition reply (q : Gorm.DB) (f : Finisher) (w : World) : Response :=
  fst (exec (q, f) (store w)).

Definition after (q : Gorm.DB) (f : Finisher) (w : World) : World :=
  {| store := snd (exec (q, f) (store w)); calls := calls w ++ [(q, f)] |}.

End Repository.

Arguments db_Create {T} ent.
Arguments db_Save {T} ent.
Arguments db_Update {T} column value.
Arguments db_Updates {T} values.
Arguments db_Delete {T}.
Arguments db_CreateInBatches {T} ents batchSize.
Arguments db_First {T}.
Arguments db_Find {T}.
Arguments db_Count {T}.
Arguments mkResponse {T} _ _ _.
Arguments Error {T} _.
Arguments dest_rows {T} _.
Arguments dest_count {T} _.
Arguments mkWorld {T Store} _ _.
Arguments store {T Store} _.
Arguments calls {T Store} _.
Arguments reply {T Store} exec q f w.
Arguments after {T Store} exec q f w.
Arguments invoke {T Store} exec q f.
Arguments Create {T Store} exec r ctx tx ent.
Arguments Update {T Store} exec r ctx tx ent.
Arguments UpdateColumn {T Store} exec r ctx tx column value scopes.
Arguments UpdateColumns {T Store} exec r ctx tx updates scopes.
Arguments Delete {T Store} exec r ctx tx scopes.
Arguments BatchInsert {T Store} exec r ctx tx ents batchSize.
Arguments First {T} zero {Store} exec r ctx scopes.
Arguments List {T Store} exec r ctx scopes.
Arguments Count {T Store} exec r ctx scopes.
Arguments Exists {T Store} exec r ctx scopes.
Arguments FirstForUpdate {T} zero {Store} exec r ctx tx scopes.
Arguments FindForUpdate {T Store} exec r ctx tx scopes.
Arguments Page {T Store} exec r ctx page pageSize scopes.

(* ===================================================================== *)
(** ** The claims' reading of the operations *)
(* ===================================================================== *)

(** The scopes that are not nil, in the order supplied. *)
Fixpoint non_nil (scopes : list Scope) : list (Gorm.DB -> Gorm.DB) :=
  match scopes with
  | [] => []
  | Some f :: rest => f :: non_nil rest
  | None :: rest => non_nil rest
  end.

(** A scope list that contains no non-nil scope. *)
Definition all_nil (scopes : list Scope) : Prop :=
  forall s, In s scopes -> s = None.

(** The query [scWithTX] starts from. *)
Definition base_query (r : Repo) (tx : option Gorm.DB) (ctx : Gorm.Context)
  : Gorm.DB :=
  Gorm.Model (Gorm.WithContext (default_db r tx) ctx) (entity r).

(** The page number and page size [Page] works with. *)
Definition effective_page (page : Z) : Z :=
  if page <=? 0 then 1 else page.

Definition effective_pageSize (pageSize : Z) : Z :=
  if pageSize <=? 0 then 20 else Z.min pageSize 1000.

(** The chunk size [BatchInsert] is documented to use. *)
Definition chunk_size (batchSize : list Z) : Z :=
  match batchSize with
  | [] => 1000
  | b0 :: _ => if b0 =? 0 then 1000 else b0
  end.

(** The package's scope constructors as data: which constructor was called,
    with what. *)
Inductive Builtin : Type :=
  | BWhere (query : Gorm.Any) (args : list Gorm.Any)
  | BWhereEq (m : list (string * Gorm.Atom))
  | BOrder (order : string)
  | BSelect (cols : list string)
  | BLimit (n : Z)
  | BOffset (n : Z)
  | BWithDeleted
  | BOnlyDeleted.

Definition scope_of (b : Builtin) : Scope :=
  match b with
  | BWhere query args => Where query args
  | BWhereEq m => WhereEq m
  | BOrder order => Order order
  | BSelect cols => Select cols
  | BLimit n => Limit n
  | BOffset n => Offset n
  | BWithDeleted => WithDeleted
  | BOnlyDeleted => OnlyDeleted
  end.

(** The builder calls a constructor's scope is expected to chain. *)
Definition clauses_of (b : Builtin) : list Gorm.Clause :=
  match b with
  | BWhere query args => [Gorm.CWhere query args]
  | BWhereEq m => [Gorm.CWhere (Gorm.AMap m) []]
  | BOrder order => [Gorm.COrder order]
  | BSelect cols => [Gorm.CSelect cols]
  | BLimit n => [Gorm.CLimit n]
  | BOffset n => [Gorm.COffset n]
  | BWithDeleted => [Gorm.CUnscoped]
  | BOnlyDeleted =>
      [Gorm.CUnscoped;
       Gorm.CWhere (Gorm.AAtom (Gorm.VString "deleted_at IS NOT NULL")) []]
  end.

(** The collaborator primitives that only read. *)
Definition is_query {T : Type} (f : Finisher T) : bool :=
  match f with
  | db_First | db_Find | db_Count => true
  | _ => false
  end.

(** A collaborator whose reading primitives leave the store as it is. *)
Definition queries_read_only {T Store : Type}
    (exec : Call T -> Store -> Response T * Store) : Prop :=
  forall q f s, is_query f = true -> snd (exec (q, f) s) = s.

(** A run of [m] from [w] that only reads: it adds at most two calls to the
    log, each of a reading primitive, and so leaves the store as it is when
    the collaborator's reading primitives do. *)
Definition reads_only {T Store A : Type}
    (exec : Call T -> Store -> Response T * Store)
    (m : state (World T Store) A) (w : World T Store) : Prop :=
  (exists new,
      calls (execState m w) = calls w ++ new
      /\ (List.length new <= 2)%nat
      /\ forallb (fun c => is_query (snd c)) new = true)
  /\ (queries_read_only exec -> store (execState m w) = store w).

(** A run of [m] from [w] that is one write: a single collaborator call, of
    a writing primitive, on a query bound to the handle of [h] and carrying
    the context [ctx], whose error is the result. *)
Definition single_write {T Store : Type}
    (exec : Call T -> Store -> Response T * Store)
    (m : state (World T Store) (option error)) (w : World T Store)
    (h : Gorm.DB) (ctx : Gorm.Context) : Prop :=
  exists q f,
    runState m w = (Error (reply exec q f w), after exec q f w)
    /\ is_query f = false
    /\ Gorm.handle q = Gorm.handle h
    /\ Gorm.context q = Some ctx.

(** The largest page number for which [page * pageSize] fits an [int] with
    any page size [Page] works with. *)
Definition max_exact_page : Z := GoInt.max_int / 1000.

(* ===================================================================== *)
(** ** An in-memory collaborator, for concrete runs *)
(* ===================================================================== *)

Module Memory.

(** A soft-deletable model, after the [User] of the tests. *)
Record User : Type := mkUser {
  ID : Z;
  Age : Z;
  Deleted : bool
}.

Definition zero_User : User := {| ID := 0; Age := 0; Deleted := false |}.

Definition User_type : Reflect.GoType :=
  Reflect.TNamed "User"
    (Reflect.TStruct
       [("ID", Reflect.TBasic Reflect.uint_t);
        ("Age", Reflect.TBasic Reflect.int_t);
        ("DeletedAt",
         Reflect.TNamed "gorm.DeletedAt"
           (Reflect.TStruct [("Time", Reflect.TNamed "time.Time" (Reflect.TStruct []));
                             ("Valid", Reflect.TBasic Reflect.bool_t)]))]).

Definition Store : Type := list User.

(** One equality of a [map[string]any] condition. *)
Definition eq_cond (kv : string * Gorm.Atom) : option (User -> bool) :=
  match kv with
  | (col, Gorm.VInt v) =>
      if String.eqb col "id" then Some (fun u => ID u =? v)
      else if String.eqb col "age" then Some (fun u => Age u =? v)
      else None
  | _ => None
  end.

Fixpoint map_cond (m : list (string * Gorm.Atom)) : option (User -> bool) :=
  match m with
  | [] => Some (fun _ => true)
  | kv :: rest =>
      match eq_cond kv, map_cond rest with
      | Some p, Some q => Some (fun u => p u && q u)
      | _, _ => None
      end
  end.

(** The row filter a builder call stands for; [None] for a condition the
    backend rejects (an unknown column, a malformed expression). *)
Definition cond (c : Gorm.Clause) : option (User -> bool) :=
  match c with
  | Gorm.CWhere (Gorm.AMap m) [] => map_cond m
  | Gorm.CWhere (Gorm.AAtom (Gorm.VString q)) [Gorm.AAtom (Gorm.VInt v)] =>
      if String.eqb q "id = ?" then Some (fun u => ID u =? v)
      else if String.eqb q "age = ?" then Some (fun u => Age u =? v)
      else if String.eqb q "age > ?" then Some (fun u => Age u >? v)
      else None
  | Gorm.CWhere (Gorm.AAtom (Gorm.VString q)) [] =>
      if String.eqb q "deleted_at IS NOT NULL" then Some Deleted else None
  | Gorm.CWhere _ _ => None
  | _ => Some (fun _ => true)
  end.

Definition is_where (c : Gorm.Clause) : bool :=
  match c with Gorm.CWhere _ _ => true | _ => false end.

Definition is_unscoped (c : Gorm.Clause) : bool :=
  match c with Gorm.CUnscoped => true | _ => false end.

Definition valid (q : Gorm.DB) : bool :=
  forallb (fun c => match cond c with Some _ => true | None => false end)
          (Gorm.chain q).

Definition holds (q : Gorm.DB) (u : User) : bool :=
  forallb (fun c => match cond c with Some p => p u | None => true end)
          (Gorm.chain q).

Definition visible (q : Gorm.DB) (u : User) : bool :=
  existsb is_unscoped (Gorm.chain q) || negb (Deleted u).

(** The stored records a query selects, before any limit or offset. *)
Definition matching (q : Gorm.DB) (s : Store) : list User :=
  filter (fun u => visible q u && holds q u) s.

(** The last limit and the last offset chained, if any. *)
Definition limit_of (q : Gorm.DB) : option Z :=
  fold_left (fun acc c => match c with Gorm.CLimit n => Some n | _ => acc end)
            (Gorm.chain q) None.

Definition offset_of (q : Gorm.DB) : option Z :=
  fold_left (fun acc c => match c with Gorm.COffset n => Some n | _ => acc end)
            (Gorm.chain q) None.

(** The rows of a result that the offset and the limit of the query let
    through. *)
Definition skipped {A : Type} (q : Gorm.DB) (rows : list A) : list A :=
  match offset_of q with
  | Some n => if n >? 0 then skipn (Z.to_nat n) rows else rows
  | None => rows
  end.

Definition window {A : Type} (q : Gorm.DB) (rows : list A) : list A :=
  let rows := skipped q rows in
  match limit_of q with
  | Some n => if n >=? 0 then firstn (Z.to_nat n) rows else rows
  | None => rows
  end.

Definition set_column (column : string) (value : Gorm.Atom) (u : User) : User :=
  match value with
  | Gorm.VInt v =>
      if String.eqb column "age"
      then {| ID := ID u; Age := v; Deleted := Deleted u |}
      else u
  | _ => u
  end.

Definition set_columns (values : Gorm.Any) (u : User) : User :=
  match values with
  | Gorm.AMap m | Gorm.AStruct _ m =>
      fold_left (fun acc kv => set_column (fst kv) (snd kv) acc) m u
  | Gorm.AAtom _ => u
  end.

Definition selected (q : Gorm.DB) (u : User) : bool :=
  visible q u && holds q u.

Definition ok (rows : list User) (count : Z) : Response User :=
  {| Error := None; dest_rows := rows; dest_count := count |}.

Definition failed (e : error) : Response User :=
  {| Error := Some e; dest_rows := []; dest_count := 0 |}.

Definition has_where (q : Gorm.DB) : bool := existsb is_where (Gorm.chain q).

Definition exec (c : Call User) (s : Store) : Response User * Store :=
  let (q, f) := c in
  if negb (valid q) then (failed (ErrOther "no such column"), s)
  else
    match f with
    | db_Create ent | db_Save ent => (ok [] 0, s ++ [ent])
    | db_CreateInBatches ents _ => (ok [] 0, s ++ ents)
    | db_Update column value =>
        if negb (has_where q) then (failed ErrMissingWhereClause, s)
        else
          (ok [] 0,
           map (fun u => if selected q u
                         then set_columns (Gorm.AMap
                                [(column, match value with
                                          | Gorm.AAtom a => a
                                          | _ => Gorm.VNil
                                          end)]) u
                         else u) s)
    | db_Updates values =>
        if negb (has_where q) then (failed ErrMissingWhereClause, s)
        else (ok [] 0, map (fun u => if selected q u then set_columns values u else u) s)
    | db_Delete =>
        if negb (has_where q) then (failed ErrMissingWhereClause, s)
        else
          (ok [] 0,
           map (fun u => if selected q u
                         then {| ID := ID u; Age := Age u; Deleted := true |}
                         else u) s)
    | db_First =>
        (* LIMIT 1 replaces the limit of the query; its offset stays *)
        match skipped q (matching q s) with
        | [] => (failed ErrRecordNotFound, s)
        | u :: _ => (ok [u] 0, s)
        end
    | db_Find => (ok (window q (matching q s)) 0, s)
    | db_Count =>
        (* SELECT count( * ) has one result row, to which the offset and the
           limit of the query apply; with no row left the destination
           receives 0 *)
        (ok [] (hd 0 (window q [len (matching q s)])), s)
    end.

(** A repository over a fresh handle, a context and some stores. *)
Definition handle0 : Gorm.DB :=
  {| Gorm.handle := 0; Gorm.context := None; Gorm.model := None; Gorm.chain := [] |}.

Definition tx1 : Gorm.DB :=
  {| Gorm.handle := 1; Gorm.context := None; Gorm.model := None; Gorm.chain := [] |}.

Definition repo : Repo := {| entity := User_type; db := Gorm.Session handle0 |}.

Definition ctx0 : Gorm.Context := Gorm.Ctx 0.

Definition users (n : nat) : Store :=
  map (fun i => {| ID := Z.of_nat i; Age := 20 + Z.of_nat i; Deleted := false |})
      (seq 1 n).

Definition world (s : Store) : World User Store := {| store := s; calls := [] |}.

End Memory.

(** The in-memory collaborator behind a driver that wraps every error it
    reports. *)
Definition wrapping_exec (c : Call Memory.User) (s : Memory.Store)
  : Response Memory.User * Memory.Store :=
  let (resp, s') := Memory.exec c s in
  ({| Error := option_map (ErrWrap "query failed") (Error resp);
      dest_rows := dest_rows resp;
      dest_count := dest_count resp |}, s').

(* ===================================================================== *)
(** ** Running the operations *)
(* ===================================================================== *)

Section Runs.

Context {T : Type} (zero : T) {Store : Type}.
Variable exec : Call T -> Store -> Response T * Store.

Lemma run_invoke (q : Gorm.DB) (f : Finisher T) (w : World T Store) :
  runState (invoke exec q f) w = (reply exec q f w, after exec q f w).
Proof.
  unfold invoke, reply, after. simpl.
  destruct (exec (q, f) (store w)) as [resp s']. reflexivity.
Qed.

Lemma run_bind_invoke {A : Type} (q : Gorm.DB) (f : Finisher T)
    (k : Response T -> state (World T Store) A) (w : World T Store) :
  runState (bind (invoke exec q f) k) w
  = runState (k (reply exec q f w)) (after exec q f w).
Proof.
  unfold invoke, reply, after. simpl.
  destruct (exec (q, f) (store w)) as [resp s']. reflexivity.
Qed.

Lemma len_zero {A : Type} (l : list A) : (len l =? 0) = true <-> l = [].
Proof.
  unfold len. destruct l as [|a l]; simpl; split; intro H;
    try reflexivity; try discriminate.
Qed.

Lemma len_cons {A : Type} (a : A) (l : list A) : (len (a :: l) =? 0) = false.
Proof. unfold len. simpl. reflexivity. Qed.

End Runs.

(* ===================================================================== *)
(** ** Scope composition *)
(* ===================================================================== *)

Lemma apply_scopes_app (q : Gorm.DB) (l1 l2 : list Scope) :
  apply_scopes q (l1 ++ l2) = apply_scopes (apply_scopes q l1) l2.
Proof.
  revert q. induction l1 as [|s l1 IH]; intro q; simpl.
  - reflexivity.
  - apply IH.
Qed.

Lemma apply_scopes_non_nil (q : Gorm.DB) (scopes : list Scope) :
  apply_scopes q scopes = fold_left (fun acc f => f acc) (non_nil scopes) q.
Proof.
  revert q. induction scopes as [|[f|] rest IH]; intro q; simpl.
  - reflexivity.
  - apply IH.
  - apply IH.
Qed.

Lemma apply_scopes_all_nil (q : Gorm.DB) (scopes : list Scope) :
  all_nil scopes -> apply_scopes q scopes = q.
Proof.
  induction scopes as [|s rest IH]; intro H; simpl.
  - reflexivity.
  - rewrite (H s (or_introl eq_refl)).
    apply IH. intros s' Hs'. apply H. right. exact Hs'.
Qed.

Lemma apply_scopes_skip_nil (q : Gorm.DB) (l1 l2 : list Scope) :
  apply_scopes q (l1 ++ None :: l2) = apply_scopes q (l1 ++ l2).
Proof.
  rewrite !apply_scopes_app. reflexivity.
Qed.

(* ===================================================================== *)
(** ** Guards and error mapping *)
(* ===================================================================== *)

Section Guards.

Context {T : Type} (zero : T) {Store : Type}.
Variable exec : Call T -> Store -> Response T * Store.

Lemma scWithTX_all_nil (r : Repo) (tx : option Gorm.DB) (ctx : Gorm.Context)
    (scopes : list Scope) :
  all_nil scopes -> scWithTX r tx ctx scopes = base_query r tx ctx.
Proof.
  intro H. unfold scWithTX, base_query, default_db.
  rewrite (apply_scopes_all_nil _ scopes H). destruct tx; reflexivity.
Qed.

(** C1, with the inputs where the code departs from it.  With an empty
    scope list [UpdateColumn], [UpdateColumns] and [Delete] return the
    dangerous-operation error and leave the world as it is: no collaborator
    call, no row modified.  With a non-empty list of nil scopes they do not:
    the guard tests the length of the list only, so the call passes it, and
    since nil scopes are skipped the base query, with no condition added,
    goes to the collaborator's update or delete, whose error is what is
    returned. *)
Theorem mutation_guard_counts_scopes (r : Repo) (ctx : Gorm.Context)
    (tx : option Gorm.DB) (column : string) (value updates : Gorm.Any)
    (scopes : list Scope) (w : World T Store) :
  all_nil scopes ->
  match scopes with
  | [] =>
      runState (UpdateColumn exec r ctx tx column value scopes) w
      = (Some ErrDangerous, w)
      /\ runState (UpdateColumns exec r ctx tx updates scopes) w
         = (Some ErrDangerous, w)
      /\ runState (Delete exec r ctx tx scopes) w = (Some ErrDangerous, w)
  | _ :: _ =>
      let q := base_query r tx ctx in
      runState (UpdateColumn exec r ctx tx column value scopes) w
      = (Error (reply exec q (db_Update column value) w),
         after exec q (db_Update column value) w)
      /\ runState (UpdateColumns exec r ctx tx updates scopes) w
         = (Error (reply exec q (db_Updates updates) w),
            after exec q (db_Updates updates) w)
      /\ runState (Delete exec r ctx tx scopes) w
         = (Error (reply exec q db_Delete w), after exec q db_Delete w)
  end.
Proof.
  intro Hnil. destruct scopes as [|s rest].
  - repeat split; reflexivity.
  - cbv zeta. unfold UpdateColumn, UpdateColumns, Delete.
    rewrite len_cons, !run_bind_invoke.
    rewrite (scWithTX_all_nil r tx ctx (s :: rest) Hnil).
    repeat split; reflexivity.
Qed.

(** C2.  With a nil transaction handle [FirstForUpdate] and [FindForUpdate]
    return the transaction-required error and leave the world as it is (no
    collaborator call, store untouched).  With a non-nil handle they make one
    collaborator call, on the scoped query with the locking clause appended,
    and the error they return is the transaction-required error only if that
    is what the collaborator itself reported for the call. *)
Theorem for_update_requires_tx (r : Repo) (ctx : Gorm.Context)
    (tx : option Gorm.DB) (scopes : list Scope) (w : World T Store) :
  (tx = None ->
   runState (FirstForUpdate zero exec r ctx tx scopes) w
   = ((zero, Some ErrTxRequired), w)
   /\ runState (FindForUpdate exec r ctx tx scopes) w
      = (([], Some ErrTxRequired), w))
  /\ (tx <> None ->
      let q := scWithTX r tx ctx (scopes ++ [for_update]) in
      execState (FirstForUpdate zero exec r ctx tx scopes) w
      = after exec q db_First w
      /\ execState (FindForUpdate exec r ctx tx scopes) w
         = after exec q db_Find w
      /\ (Error (reply exec q db_First w) <> Some ErrTxRequired ->
          snd (evalState (FirstForUpdate zero exec r ctx tx scopes) w)
          <> Some ErrTxRequired)
      /\ (Error (reply exec q db_Find w) <> Some ErrTxRequired ->
          snd (evalState (FindForUpdate exec r ctx tx scopes) w)
          <> Some ErrTxRequired)).
Proof.
  split.
  - intros ->. split; reflexivity.
  - intro Htx. destruct tx as [t|]; [clear Htx | contradiction].
    cbv zeta. unfold execState, evalState, FirstForUpdate, FindForUpdate.
    rewrite !run_bind_invoke.
    set (q := scWithTX r (Some t) ctx (scopes ++ [for_update])).
    destruct (Error (reply exec q db_First w)) as [e1|] eqn:E1;
      destruct (Error (reply exec q db_Find w)) as [e2|] eqn:E2;
      try destruct (errors_Is e1 ErrRecordNotFound) eqn:I1;
      simpl; repeat split; try reflexivity; try congruence;
      try discriminate.
Qed.

(** C5.  When the collaborator reports an error for the [First] call made
    by [First], or by [FirstForUpdate] with a non-nil transaction: if it is a
    "record not found" ([errors.Is] finds [gorm.ErrRecordNotFound] in it) the
    operation returns the not-found error; any other error is returned
    unchanged. *)
Theorem first_maps_no_rows_to_not_found (r : Repo) (ctx : Gorm.Context)
    (t : Gorm.DB) (scopes : list Scope) (w : World T Store) (err : error) :
  (Error (reply exec (sc r ctx scopes) db_First w) = Some err ->
   (errors_Is err ErrRecordNotFound = true ->
    snd (evalState (First zero exec r ctx scopes) w) = Some ErrNotFound)
   /\ (errors_Is err ErrRecordNotFound = false ->
       snd (evalState (First zero exec r ctx scopes) w) = Some err))
  /\ (Error (reply exec (scWithTX r (Some t) ctx (scopes ++ [for_update]))
               db_First w) = Some err ->
      (errors_Is err ErrRecordNotFound = true ->
       snd (evalState (FirstForUpdate zero exec r ctx (Some t) scopes) w)
       = Some ErrNotFound)
      /\ (errors_Is err ErrRecordNotFound = false ->
          snd (evalState (FirstForUpdate zero exec r ctx (Some t) scopes) w)
          = Some err)).
Proof.
  unfold evalState, First, FirstForUpdate.
  rewrite !run_bind_invoke.
  split; intros ->; split; intros ->; reflexivity.
Qed.

(** C7.  [BatchInsert] on an empty entity list returns no error and makes
    no collaborator call.  On a non-empty list it makes one call, the
    collaborator's batched insert of the entities, with chunk size 1000 when
    the optional [batchSize] is absent or 0 and the given [batchSize]
    otherwise. *)
Theorem batch_insert_chunk_size (r : Repo) (ctx : Gorm.Context)
    (tx : option Gorm.DB) (ents : list T) (batchSize : list Z)
    (w : World T Store) :
  (ents = [] -> runState (BatchInsert exec r ctx tx ents batchSize) w = (None, w))
  /\ (ents <> [] ->
      let q := Gorm.WithContext (default_db r tx) ctx in
      let f := db_CreateInBatches ents (chunk_size batchSize) in
      runState (BatchInsert exec r ctx tx ents batchSize) w
      = (Error (reply exec q f w), after exec q f w)).
Proof.
  split.
  - intros ->. reflexivity.
  - intro Hne. destruct ents as [|e ents]; [contradiction|].
    cbv zeta. unfold BatchInsert. rewrite len_cons, run_bind_invoke.
    destruct batchSize as [|b0 rest]; reflexivity.
Qed.

End Guards.

(* ===================================================================== *)
(** ** Pagination *)
(* ===================================================================== *)

Lemma wrap_id (z : Z) : GoInt.in_range z -> GoInt.wrap z = z.
Proof.
  unfold GoInt.in_range, GoInt.wrap, GoInt.min_int, GoInt.max_int,
    GoInt.int_modulus, GoInt.int_bits.
  intro H. change (2 ^ (64 - 1)) with 9223372036854775808 in *.
  change (2 ^ 64) with 18446744073709551616.
  rewrite Z.mod_small by lia. lia.
Qed.

Lemma effective_page_pos (page : Z) : 1 <= effective_page page.
Proof. unfold effective_page. destruct (Z.leb_spec page 0); lia. Qed.

Lemma effective_pageSize_bounds (pageSize : Z) :
  1 <= effective_pageSize pageSize <= 1000.
Proof. unfold effective_pageSize. destruct (Z.leb_spec pageSize 0); lia. Qed.

Lemma pageSize_normalised (pageSize : Z) :
  (let ps := if pageSize <=? 0 then 20 else pageSize in
   if ps >? 1000 then 1000 else ps) = effective_pageSize pageSize.
Proof.
  unfold effective_pageSize. cbv zeta.
  destruct (Z.leb_spec pageSize 0).
  - reflexivity.
  - destruct (Z.gtb_spec pageSize 1000); lia.
Qed.

Section Pagination.

Context {T : Type} {Store : Type}.
Variable exec : Call T -> Store -> Response T * Store.

Lemma run_Count (r : Repo) (ctx : Gorm.Context) (scopes : list Scope)
    (w : World T Store) :
  runState (Count exec r ctx scopes) w
  = (match Error (reply exec (sc r ctx scopes) db_Count w) with
     | Some err => (0, Some err)
     | None => (dest_count (reply exec (sc r ctx scopes) db_Count w), None)
     end,
     after exec (sc r ctx scopes) db_Count w).
Proof.
  unfold Count. rewrite run_bind_invoke.
  destruct (Error (reply exec (sc r ctx scopes) db_Count w)); reflexivity.
Qed.

Lemma run_Page (r : Repo) (ctx : Gorm.Context) (page pageSize : Z)
    (scopes : list Scope) (w : World T Store) :
  let p := effective_page page in
  let ps := effective_pageSize pageSize in
  let q1 := sc r ctx scopes in
  let w1 := after exec q1 db_Count w in
  let q2 := sc r ctx (scopes ++ [Limit ps; Offset (GoInt.mul (GoInt.sub p 1) ps)]) in
  runState (Page exec r ctx page pageSize scopes) w
  = match Error (reply exec q1 db_Count w) with
    | Some e => ((PageResult.zero, Some e), w1)
    | None =>
        match Error (reply exec q2 db_Find w1) with
        | Some e => ((PageResult.zero, Some e), after exec q2 db_Find w1)
        | None =>
            (({| PageResult.Items := dest_rows (reply exec q2 db_Find w1);
                 PageResult.Total := dest_count (reply exec q1 db_Count w);
                 PageResult.Page := p;
                 PageResult.PageSize := ps;
                 PageResult.HasNext :=
                   GoInt.mul p ps <? dest_count (reply exec q1 db_Count w) |},
              None),
             after exec q2 db_Find w1)
        end
    end.
Proof.
  cbv zeta. unfold Page.
  pose proof (pageSize_normalised pageSize) as Hps. cbv zeta in Hps.
  rewrite Hps. fold (effective_page page).
  change (runState (bind ?m ?k) w)
    with (let (v, s) := runState m w in runState (k v) s).
  rewrite run_Count.
  destruct (Error (reply exec (sc r ctx scopes) db_Count w)) as [e|].
  - reflexivity.
  - rewrite run_bind_invoke.
    destruct (Error (reply exec _ db_Find _)); reflexivity.
Qed.

End Pagination.

Lemma sc_limit_offset (r : Repo) (ctx : Gorm.Context) (scopes : list Scope)
    (n m : Z) :
  sc r ctx (scopes ++ [Limit n; Offset m])
  = Gorm.Offset (Gorm.Limit (sc r ctx scopes) n) m.
Proof.
  unfold sc. rewrite apply_scopes_app. reflexivity.
Qed.

Lemma page_offset_exact (p ps : Z) :
  1 <= p -> 1 <= ps -> (p - 1) * ps <= GoInt.max_int ->
  GoInt.mul (GoInt.sub p 1) ps = (p - 1) * ps.
Proof.
  intros Hp Hps Hfit. unfold GoInt.mul, GoInt.sub.
  assert (Hin : GoInt.in_range (p - 1)).
  { unfold GoInt.in_range, GoInt.min_int, GoInt.max_int, GoInt.int_bits in *.
    simpl in *. nia. }
  rewrite (wrap_id _ Hin). apply wrap_id.
  unfold GoInt.in_range, GoInt.min_int, GoInt.max_int, GoInt.int_bits in *.
  simpl in *. nia.
Qed.

Lemma page_product_exact (p ps : Z) :
  1 <= p -> 1 <= ps -> p * ps <= GoInt.max_int -> GoInt.mul p ps = p * ps.
Proof.
  intros Hp Hps Hfit. unfold GoInt.mul. apply wrap_id.
  unfold GoInt.in_range, GoInt.min_int, GoInt.max_int, GoInt.int_bits in *.
  simpl in *. nia.
Qed.

Section PageClaims.

Context {T : Type} {Store : Type}.
Variable exec : Call T -> Store -> Response T * Store.

(** C3, as the code has it.  When [Page] returns no error, the result has
    [Page = page'] and [PageSize = pageSize'], where [page'] is 1 for
    [page <= 0] and [page] otherwise and [pageSize'] is 20 for
    [pageSize <= 0] and [min pageSize 1000] otherwise; [HasNext] compares the
    product [page' * pageSize'] as an [int] holds it with [Total], so it is
    true iff [page' * pageSize' < Total] whenever the product fits an [int]. *)
Theorem page_result_fields (r : Repo) (ctx : Gorm.Context) (page pageSize : Z)
    (scopes : list Scope) (w w' : World T Store) (res : PageResult.t T) :
  runState (Page exec r ctx page pageSize scopes) w = ((res, None), w') ->
  let p := effective_page page in
  let ps := effective_pageSize pageSize in
  PageResult.Page res = p
  /\ PageResult.PageSize res = ps
  /\ PageResult.HasNext res = (GoInt.mul p ps <? PageResult.Total res)
  /\ (p * ps <= GoInt.max_int ->
      (PageResult.HasNext res = true <-> p * ps < PageResult.Total res)).
Proof.
  intro Hrun. cbv zeta.
  pose proof (run_Page exec r ctx page pageSize scopes w) as E.
  cbv zeta in E. rewrite E in Hrun. clear E.
  destruct (Error (reply exec (sc r ctx scopes) db_Count w)); [discriminate|].
  destruct (Error (reply exec _ db_Find _)); [discriminate|].
  injection Hrun as Hres _. subst res. simpl.
  split; [reflexivity|]. split; [reflexivity|]. split; [reflexivity|].
  intro Hfit.
  rewrite (page_product_exact _ _ (effective_page_pos page)
             (proj1 (effective_pageSize_bounds pageSize)) Hfit).
  apply Z.ltb_lt.
Qed.

(** C4, as the code has it.  [Page] first runs the collaborator's [Count] on
    the caller's scopes.  If that fails, [Page] returns the error and the
    zero result after this one call.  Otherwise it makes exactly one more
    call, [Find] on the same scopes with [Limit(pageSize')] and then
    [Offset(o)] applied after them, where [o] is [(page' - 1) * pageSize'] as
    an [int] holds it (the exact product whenever that fits); when the fetch
    succeeds its rows are [Items] and the count is [Total], and when it fails
    its error is returned with the zero result. *)
Theorem page_count_then_fetch (r : Repo) (ctx : Gorm.Context)
    (page pageSize : Z) (scopes : list Scope) (w : World T Store) :
  let p := effective_page page in
  let ps := effective_pageSize pageSize in
  let o := GoInt.mul (GoInt.sub p 1) ps in
  let q1 := sc r ctx scopes in
  let q2 := Gorm.Offset (Gorm.Limit (sc r ctx scopes) ps) o in
  let w1 := after exec q1 db_Count w in
  let run := runState (Page exec r ctx page pageSize scopes) w in
  match Error (reply exec q1 db_Count w) with
  | Some e =>
      run = ((PageResult.zero, Some e), w1)
      /\ calls (snd run) = calls w ++ [(q1, db_Count)]
  | None =>
      snd run = after exec q2 db_Find w1
      /\ calls (snd run) = calls w ++ [(q1, db_Count); (q2, db_Find)]
      /\ match Error (reply exec q2 db_Find w1) with
         | Some e => fst run = (PageResult.zero, Some e)
         | None =>
             snd (fst run) = None
             /\ PageResult.Items (fst (fst run))
                = dest_rows (reply exec q2 db_Find w1)
             /\ PageResult.Total (fst (fst run))
                = dest_count (reply exec q1 db_Count w)
         end
  end
  /\ ((p - 1) * ps <= GoInt.max_int -> o = (p - 1) * ps).
Proof.
  cbv zeta. split.
  - pose proof (run_Page exec r ctx page pageSize scopes w) as E.
    cbv zeta in E. rewrite E. clear E. rewrite sc_limit_offset.
    destruct (Error (reply exec (sc r ctx scopes) db_Count w)).
    + split; reflexivity.
    + destruct (Error (reply exec _ db_Find _)); simpl;
        rewrite <- app_assoc; repeat split; reflexivity.
  - intro Hfit. apply page_offset_exact; auto using effective_page_pos.
    apply effective_pageSize_bounds.
Qed.

End PageClaims.

(** C8.  Every operation that takes scopes hands the collaborator the base
    query (context and model set on the repository's handle, or on the
    transaction where the operation takes one) transformed by the non-nil
    scopes applied as functions in the order supplied, a left fold:
    [First], [List] and [Count] run on exactly that query, [Exists] on it
    under [Limit(1)], [Page] first counts on it and then fetches on it under
    its limit and offset, [FirstForUpdate] and [FindForUpdate] run on it
    under the locking clause, and [UpdateColumn], [UpdateColumns] and
    [Delete], once past their guard, update or delete on it.  A nil scope is
    skipped: [sc] and [scWithTX] give the same query, and every reading
    operation the same run, with a nil scope inserted anywhere as without
    it; a list in two parts is the second part applied to the result of the
    first. *)
Theorem scopes_applied_in_order {T Store : Type} (zero : T)
    (exec : Call T -> Store -> Response T * Store)
    (r : Repo) (ctx : Gorm.Context) (tx : option Gorm.DB) (t : Gorm.DB)
    (page pageSize : Z) (column : string) (value updates : Gorm.Any)
    (scopes l1 l2 : list Scope) (w : World T Store) :
  let applied := fun base => fold_left (fun q f => f q) (non_nil scopes) base in
  let base := Gorm.Model (Gorm.WithContext (db r) ctx) (entity r) in
  let base_of := fun h => Gorm.Model (Gorm.WithContext h ctx) (entity r) in
  let base_tx := base_of (match tx with Some h => h | None => db r end) in
  let ps := effective_pageSize pageSize in
  let o := GoInt.mul (GoInt.sub (effective_page page) 1) ps in
  (* the two builders *)
  (sc r ctx scopes = applied base
   /\ scWithTX r tx ctx scopes = applied base_tx
   /\ sc r ctx (l1 ++ l2) = apply_scopes (sc r ctx l1) l2
   /\ scWithTX r tx ctx (l1 ++ l2) = apply_scopes (scWithTX r tx ctx l1) l2
   /\ sc r ctx (l1 ++ None :: l2) = sc r ctx (l1 ++ l2)
   /\ scWithTX r tx ctx (l1 ++ None :: l2) = scWithTX r tx ctx (l1 ++ l2))
  (* the query each operation runs on *)
  /\ (execState (First zero exec r ctx scopes) w
      = after exec (applied base) db_First w
      /\ execState (List exec r ctx scopes) w
         = after exec (applied base) db_Find w
      /\ execState (Count exec r ctx scopes) w
         = after exec (applied base) db_Count w
      /\ execState (Exists exec r ctx scopes) w
         = after exec (Gorm.Limit (applied base) 1) db_Count w
      /\ execState (Page exec r ctx page pageSize scopes) w
         = match Error (reply exec (applied base) db_Count w) with
           | Some _ => after exec (applied base) db_Count w
           | None =>
               after exec (Gorm.Offset (Gorm.Limit (applied base) ps) o) db_Find
                 (after exec (applied base) db_Count w)
           end
      /\ execState (FirstForUpdate zero exec r ctx (Some t) scopes) w
         = after exec (Gorm.Clauses_Locking (applied (base_of t)) "UPDATE")
             db_First w
      /\ execState (FindForUpdate exec r ctx (Some t) scopes) w
         = after exec (Gorm.Clauses_Locking (applied (base_of t)) "UPDATE")
             db_Find w
      /\ match scopes with
         | [] =>
             execState (UpdateColumn exec r ctx tx column value scopes) w = w
             /\ execState (UpdateColumns exec r ctx tx updates scopes) w = w
             /\ execState (Delete exec r ctx tx scopes) w = w
         | _ :: _ =>
             execState (UpdateColumn exec r ctx tx column value scopes) w
             = after exec (applied base_tx) (db_Update column value) w
             /\ execState (UpdateColumns exec r ctx tx updates scopes) w
                = after exec (applied base_tx) (db_Updates updates) w
             /\ execState (Delete exec r ctx tx scopes) w
                = after exec (applied base_tx) db_Delete w
         end)
  (* a nil scope anywhere changes no reading operation *)
  /\ (runState (First zero exec r ctx (l1 ++ None :: l2)) w
      = runState (First zero exec r ctx (l1 ++ l2)) w
      /\ runState (List exec r ctx (l1 ++ None :: l2)) w
         = runState (List exec r ctx (l1 ++ l2)) w
      /\ runState (Count exec r ctx (l1 ++ None :: l2)) w
         = runState (Count exec r ctx (l1 ++ l2)) w
      /\ runState (Exists exec r ctx (l1 ++ None :: l2)) w
         = runState (Exists exec r ctx (l1 ++ l2)) w
      /\ runState (Page exec r ctx page pageSize (l1 ++ None :: l2)) w
         = runState (Page exec r ctx page pageSize (l1 ++ l2)) w
      /\ runState (FirstForUpdate zero exec r ctx tx (l1 ++ None :: l2)) w
         = runState (FirstForUpdate zero exec r ctx tx (l1 ++ l2)) w
      /\ runState (FindForUpdate exec r ctx tx (l1 ++ None :: l2)) w
         = runState (FindForUpdate exec r ctx tx (l1 ++ l2)) w).
Proof.
  cbv zeta.
  assert (Hsc : sc r ctx scopes
                = fold_left (fun q f => f q) (non_nil scopes)
                    (Gorm.Model (Gorm.WithContext (db r) ctx) (entity r))).
  { unfold sc. apply apply_scopes_non_nil. }
  assert (Htx : forall tx',
             scWithTX r tx' ctx scopes
             = fold_left (fun q f => f q) (non_nil scopes)
                 (Gorm.Model
                    (Gorm.WithContext
                       (match tx' with Some h => h | None => db r end) ctx)
                    (entity r))).
  { intro tx'. unfold scWithTX. destruct tx'; apply apply_scopes_non_nil. }
  assert (Hlock : scWithTX r (Some t) ctx (scopes ++ [for_update])
                  = Gorm.Clauses_Locking (scWithTX r (Some t) ctx scopes)
                      "UPDATE").
  { unfold scWithTX. rewrite apply_scopes_app. reflexivity. }
  assert (Hnil : forall extra,
             sc r ctx ((l1 ++ None :: l2) ++ extra)
             = sc r ctx ((l1 ++ l2) ++ extra)).
  { intro extra. unfold sc. rewrite <- !app_assoc. simpl.
    apply apply_scopes_skip_nil. }
  assert (Hnil_tx : forall extra,
             scWithTX r tx ctx ((l1 ++ None :: l2) ++ extra)
             = scWithTX r tx ctx ((l1 ++ l2) ++ extra)).
  { intro extra. unfold scWithTX. rewrite <- !app_assoc. simpl.
    apply apply_scopes_skip_nil. }
  pose proof (Hnil []) as Hnil0. rewrite !app_nil_r in Hnil0.
  pose proof (Hnil_tx []) as Hnil_tx0. rewrite !app_nil_r in Hnil_tx0.
  split; [|split].
  - split; [exact Hsc|]. split; [exact (Htx tx)|].
    unfold sc, scWithTX.
    split; [apply apply_scopes_app|]. split; [apply apply_scopes_app|].
    split; apply apply_scopes_skip_nil.
  - unfold execState.
    pose proof (run_Page exec r ctx page pageSize scopes w) as P.
    cbv zeta in P. rewrite P, sc_limit_offset, run_Count. clear P.
    unfold First, List, Exists, FirstForUpdate, FindForUpdate.
    rewrite !run_bind_invoke, Hlock, (Htx (Some t)), Hsc.
    split; [destruct (Error (reply exec _ db_First w)) as [e|];
            [destruct (errors_Is e ErrRecordNotFound)|]; reflexivity|].
    split; [destruct (Error (reply exec _ db_Find w)); reflexivity|].
    split; [reflexivity|].
    split; [destruct (Error (reply exec _ db_Count w)); reflexivity|].
    split; [destruct (Error (reply exec _ db_Count w));
            [|destruct (Error (reply exec _ db_Find _))]; reflexivity|].
    split; [destruct (Error (reply exec _ db_First w)) as [e|];
            [destruct (errors_Is e ErrRecordNotFound)|]; reflexivity|].
    split; [destruct (Error (reply exec _ db_Find w)); reflexivity|].
    destruct scopes as [|s0 rest].
    + repeat split; reflexivity.
    + unfold UpdateColumn, UpdateColumns, Delete.
      rewrite len_cons, !run_bind_invoke, (Htx tx).
      repeat split; reflexivity.
  - pose proof (run_Page exec r ctx page pageSize (l1 ++ None :: l2) w) as P1.
    pose proof (run_Page exec r ctx page pageSize (l1 ++ l2) w) as P2.
    cbv zeta in P1, P2. rewrite P1, P2, Hnil, Hnil0. clear P1 P2.
    unfold First, List, Count, Exists, FirstForUpdate, FindForUpdate.
    rewrite Hnil0.
    repeat split; try reflexivity; destruct tx; try reflexivity;
      rewrite Hnil_tx; reflexivity.
Qed.

(* ===================================================================== *)
(** ** Construction *)
(* ===================================================================== *)

Lemma Kind_eqb_eq (a b : Reflect.Kind) : Reflect.Kind_eqb a b = true <-> a = b.
Proof.
  split.
  - destruct a, b; simpl; intro H; try reflexivity; discriminate H.
  - intros ->. destruct b; reflexivity.
Qed.

Lemma Kind_eqb_neq (a b : Reflect.Kind) : Reflect.Kind_eqb a b = false <-> a <> b.
Proof.
  split.
  - intros H E. apply Kind_eqb_eq in E. congruence.
  - intro H. destruct (Reflect.Kind_eqb a b) eqn:E; [|reflexivity].
    apply Kind_eqb_eq in E. contradiction.
Qed.

Lemma TypeOf_zero_non_interface (T : Reflect.GoType) :
  Reflect.kind T <> Reflect.Interface -> Reflect.TypeOf_zero T = Some T.
Proof.
  unfold Reflect.TypeOf_zero. destruct (Reflect.kind T); congruence.
Qed.

(** On a type that is not an interface type and a handle that is not nil
    [NewRepo] validates as documented: a struct type gives a repository, any
    other type the invalid-type error. *)
Lemma NewRepo_non_interface (T : Reflect.GoType) (h : Gorm.DB) :
  Reflect.kind T <> Reflect.Interface ->
  NewRepo T (Some h)
  = if Reflect.Kind_eqb (Reflect.kind T) Reflect.Struct
    then Returns (Some {| entity := T; db := Gorm.Session h |}, None)
    else Returns (None, Some ErrInvalidType).
Proof.
  intro H. unfold NewRepo. rewrite (TypeOf_zero_non_interface T H). simpl.
  destruct (Reflect.kind T); reflexivity.
Qed.

(** C6, at the input where the code departs from it.  [any] is not a struct
    type, yet [NewRepo[any]] does not return the invalid-type error: the call
    panics. *)
Theorem new_repo_any_no_invalid_type (d : option Gorm.DB) :
  Reflect.kind Reflect.any <> Reflect.Struct
  /\ NewRepo Reflect.any d = Panics nil_dereference
  /\ NewRepo Reflect.any d <> Returns (None, Some ErrInvalidType).
Proof.
  split; [discriminate|]. split; [reflexivity | discriminate].
Qed.

(** C10.  For an entity type parameter that is an interface type the
    reflected type of the zero value is nil, and [NewRepo] panics on the nil
    dereference in [t.Kind()] instead of returning the invalid-type error. *)
Theorem new_repo_interface_panics (T : Reflect.GoType) (d : option Gorm.DB) :
  Reflect.kind T = Reflect.Interface ->
  Reflect.TypeOf_zero T = None
  /\ NewRepo T d = Panics nil_dereference
  /\ NewRepo T d <> Returns (None, Some ErrInvalidType).
Proof.
  intro H.
  assert (Hnil : Reflect.TypeOf_zero T = None).
  { unfold Reflect.TypeOf_zero. rewrite H. reflexivity. }
  assert (Hpanic : NewRepo T d = Panics nil_dereference).
  { unfold NewRepo. rewrite Hnil. reflexivity. }
  split; [exact Hnil|]. split; [exact Hpanic|].
  rewrite Hpanic. discriminate.
Qed.

Lemma new_repo_interface_panics_witness :
  Reflect.kind Reflect.any = Reflect.Interface
  /\ NewRepo Reflect.any (Some Memory.handle0) = Panics nil_dereference.
Proof.
  split.
  - reflexivity.
  - apply (new_repo_interface_panics Reflect.any (Some Memory.handle0)).
    reflexivity.
Defined.

(* ===================================================================== *)
(** ** The in-memory collaborator: its contract, and concrete runs *)
(* ===================================================================== *)

Lemma mutation_guard_counts_scopes_witness :
  let q := base_query Memory.repo None Memory.ctx0 in
  let w := Memory.world (Memory.users 3) in
  all_nil [@None (Gorm.DB -> Gorm.DB)]
  /\ runState (Delete Memory.exec Memory.repo Memory.ctx0 None [None]) w
     = (Error (reply Memory.exec q db_Delete w), after Memory.exec q db_Delete w).
Proof.
  assert (Hnil : all_nil [@None (Gorm.DB -> Gorm.DB)]).
  { intros s [<- | []]. reflexivity. }
  cbv zeta. split; [exact Hnil|].
  exact (proj2 (proj2
    (mutation_guard_counts_scopes Memory.exec Memory.repo Memory.ctx0 None
       "age" (Gorm.AAtom (Gorm.VInt 1)) (Gorm.AMap []) [None]
       (Memory.world (Memory.users 3)) Hnil))).
Defined.

(** C1 at a failing input: [Delete] and [UpdateColumn] with the single
    scope nil pass the guard, call the collaborator with the unfiltered query
    and return its error, not the dangerous-operation one. *)
Lemma nil_scope_passes_mutation_guard :
  all_nil [@None (Gorm.DB -> Gorm.DB)]
  /\ evalState (Delete Memory.exec Memory.repo Memory.ctx0 None [None])
       (Memory.world (Memory.users 3))
     = Some ErrMissingWhereClause
  /\ evalState (Delete Memory.exec Memory.repo Memory.ctx0 None [None])
       (Memory.world (Memory.users 3))
     <> Some ErrDangerous
  /\ evalState (UpdateColumn Memory.exec Memory.repo Memory.ctx0 None "age"
                  (Gorm.AAtom (Gorm.VInt 1)) [None])
       (Memory.world (Memory.users 3))
     <> Some ErrDangerous
  /\ calls (execState (Delete Memory.exec Memory.repo Memory.ctx0 None [None])
              (Memory.world (Memory.users 3)))
     = [(base_query Memory.repo None Memory.ctx0, db_Delete)].
Proof.
  split.
  - intros s [<- | []]. reflexivity.
  - split; [reflexivity|]. split; [vm_compute; discriminate|].
    split; [vm_compute; discriminate | reflexivity].
Qed.

Lemma for_update_requires_tx_witness :
  let scopes := [Where (Gorm.AAtom (Gorm.VString "id = ?"))
                       [Gorm.AAtom (Gorm.VInt 1)]] in
  let w := Memory.world (Memory.users 3) in
  runState (FirstForUpdate Memory.zero_User Memory.exec Memory.repo Memory.ctx0
              None scopes) w
  = ((Memory.zero_User, Some ErrTxRequired), w)
  /\ snd (evalState (FirstForUpdate Memory.zero_User Memory.exec Memory.repo
                       Memory.ctx0 (Some Memory.tx1) scopes) w)
     <> Some ErrTxRequired.
Proof.
  cbv zeta. split.
  - exact (proj1 (proj1
      (for_update_requires_tx Memory.zero_User Memory.exec Memory.repo
         Memory.ctx0 None
         [Where (Gorm.AAtom (Gorm.VString "id = ?")) [Gorm.AAtom (Gorm.VInt 1)]]
         (Memory.world (Memory.users 3))) eq_refl)).
  - refine (proj1 (proj2 (proj2 (proj2
      (for_update_requires_tx Memory.zero_User Memory.exec Memory.repo
         Memory.ctx0 (Some Memory.tx1)
         [Where (Gorm.AAtom (Gorm.VString "id = ?")) [Gorm.AAtom (Gorm.VInt 1)]]
         (Memory.world (Memory.users 3)))
      _))) _).
    + discriminate.
    + vm_compute. discriminate.
Defined.

Lemma first_maps_no_rows_to_not_found_witness :
  let scopes := [Where (Gorm.AAtom (Gorm.VString "id = ?"))
                       [Gorm.AAtom (Gorm.VInt 9)]] in
  let w := Memory.world (Memory.users 3) in
  Error (reply Memory.exec (sc Memory.repo Memory.ctx0 scopes) db_First w)
  = Some ErrRecordNotFound
  /\ errors_Is ErrRecordNotFound ErrRecordNotFound = true
  /\ snd (evalState (First Memory.zero_User Memory.exec Memory.repo Memory.ctx0
                       scopes) w)
     = Some ErrNotFound.
Proof.
  cbv zeta. split; [reflexivity|]. split; [reflexivity|].
  exact (proj1 (proj1
    (first_maps_no_rows_to_not_found Memory.zero_User Memory.exec Memory.repo
       Memory.ctx0 Memory.tx1
       [Where (Gorm.AAtom (Gorm.VString "id = ?")) [Gorm.AAtom (Gorm.VInt 9)]]
       (Memory.world (Memory.users 3))
       ErrRecordNotFound) eq_refl) eq_refl).
Defined.

Lemma batch_insert_chunk_size_witness :
  let ents := Memory.users 2 in
  let w := Memory.world [] in
  let q := Gorm.WithContext (db Memory.repo) Memory.ctx0 in
  ents <> []
  /\ runState (BatchInsert Memory.exec Memory.repo Memory.ctx0 None ents [0]) w
     = (Error (reply Memory.exec q (db_CreateInBatches ents 1000) w),
        after Memory.exec q (db_CreateInBatches ents 1000) w).
Proof.
  cbv zeta. split.
  - discriminate.
  - apply (proj2 (batch_insert_chunk_size Memory.exec Memory.repo Memory.ctx0
                    None (Memory.users 2) [0] (Memory.world []))).
    discriminate.
Defined.

Lemma page_result_fields_witness :
  let run := runState (Page Memory.exec Memory.repo Memory.ctx0 0 0 [])
               (Memory.world (Memory.users 5)) in
  run = ((fst (fst run), None), snd run)
  /\ PageResult.Page (fst (fst run)) = 1
  /\ PageResult.PageSize (fst (fst run)) = 20
  /\ PageResult.HasNext (fst (fst run)) = false
  /\ List.length (PageResult.Items (fst (fst run))) = 5%nat.
Proof.
  cbv zeta.
  assert (Hrun : runState (Page Memory.exec Memory.repo Memory.ctx0 0 0 [])
                   (Memory.world (Memory.users 5))
                 = ((fst (fst (runState (Page Memory.exec Memory.repo
                                           Memory.ctx0 0 0 [])
                                 (Memory.world (Memory.users 5)))), None),
                    snd (runState (Page Memory.exec Memory.repo Memory.ctx0 0 0 [])
                           (Memory.world (Memory.users 5)))))
    by reflexivity.
  split; [exact Hrun|].
  destruct (page_result_fields Memory.exec Memory.repo Memory.ctx0 0 0 []
              (Memory.world (Memory.users 5)) _ _ Hrun) as (Hp & Hps & _ & _).
  split; [exact Hp|]. split; [exact Hps|]. split; reflexivity.
Defined.

(** C3 fails where the product leaves the range of [int]: on page
    [math.MaxInt] with page size 1000 the product wraps around to -1000,
    which is below the total of 3, so [HasNext] is true although
    [page' * pageSize'] is not below [Total]. *)
Lemma page_has_next_wraps_around :
  let run := evalState (Page Memory.exec Memory.repo Memory.ctx0
                          GoInt.max_int 1000 [])
               (Memory.world (Memory.users 3)) in
  snd run = None
  /\ PageResult.Page (fst run) = effective_page GoInt.max_int
  /\ PageResult.PageSize (fst run) = effective_pageSize 1000
  /\ PageResult.Total (fst run) = 3
  /\ GoInt.mul GoInt.max_int 1000 = -1000
  /\ PageResult.HasNext (fst run) = true
  /\ ~ (effective_page GoInt.max_int * effective_pageSize 1000
        < PageResult.Total (fst run)).
Proof.
  cbv zeta. repeat (split; [reflexivity|]).
  intro H. vm_compute in H. discriminate H.
Qed.

Lemma page_count_then_fetch_witness :
  (effective_page 3 - 1) * effective_pageSize 10 <= GoInt.max_int
  /\ GoInt.mul (GoInt.sub (effective_page 3) 1) (effective_pageSize 10) = 20.
Proof.
  assert (Hfit : (effective_page 3 - 1) * effective_pageSize 10 <= GoInt.max_int)
    by (vm_compute; discriminate).
  split; [exact Hfit|].
  exact (proj2 (page_count_then_fetch Memory.exec Memory.repo Memory.ctx0 3 10 []
                  (Memory.world (Memory.users 25))) Hfit).
Defined.

(** C4 fails when the count fails: with a condition on an unknown column
    [Page] makes the [Count] call only and returns its error. *)
Lemma page_stops_after_failed_count :
  let scopes := [Where (Gorm.AAtom (Gorm.VString "invalid_column = ?"))
                       [Gorm.AAtom (Gorm.VString "value")]] in
  let run := runState (Page Memory.exec Memory.repo Memory.ctx0 1 10 scopes)
               (Memory.world (Memory.users 5)) in
  fst run = (PageResult.zero, Some (ErrOther "no such column"))
  /\ calls (snd run) = [(sc Memory.repo Memory.ctx0 scopes, db_Count)]
  /\ List.length (calls (snd run)) <> 2%nat.
Proof.
  cbv zeta. split; [reflexivity|]. split; [reflexivity|].
  vm_compute. discriminate.
Qed.


(* ===================================================================== *)
(** ** Further properties: construction and scopes *)
(* ===================================================================== *)

Lemma NewRepo_value (T : Reflect.GoType) (d : option Gorm.DB) :
  NewRepo T d
  = match Reflect.kind T with
    | Reflect.Interface => Panics nil_dereference
    | Reflect.Struct =>
        match d with
        | Some h => Returns (Some {| entity := T; db := h |}, None)
        | None => Panics nil_dereference
        end
    | _ => Returns (None, Some ErrInvalidType)
    end.
Proof.
  unfold NewRepo, Reflect.TypeOf_zero.
  destruct (Reflect.kind T) eqn:K; simpl; rewrite ?K; simpl;
    destruct d; reflexivity.
Qed.

(** X1.  [NewRepo] has three outcomes, decided by the kind of [T] and by
    whether the handle is nil: a repository for [T] over the session handle
    exactly for a struct kind with a handle that is not nil, the invalid-type
    error exactly for a kind that is neither struct nor interface (pointers
    included, whatever the handle), and a panic exactly for an interface kind
    or a struct kind with a nil handle. *)
Theorem NewRepo_outcomes (T : Reflect.GoType) (d : option Gorm.DB) :
  (forall h,
      Reflect.kind T = Reflect.Struct /\ d = Some h
      <-> NewRepo T d
          = Returns (Some {| entity := T; db := Gorm.Session h |}, None))
  /\ (Reflect.kind T <> Reflect.Struct /\ Reflect.kind T <> Reflect.Interface
      <-> NewRepo T d = Returns (None, Some ErrInvalidType))
  /\ (Reflect.kind T = Reflect.Interface
      \/ (Reflect.kind T = Reflect.Struct /\ d = None)
      <-> NewRepo T d = Panics nil_dereference).
Proof.
  rewrite NewRepo_value. unfold Gorm.Session.
  destruct (Reflect.kind T); destruct d as [h0|];
    (split; [intro h | split]); split; intro H0;
    intuition (try congruence; try discriminate).
Qed.

Lemma chained_fields (q : Gorm.DB) (c : Gorm.Clause) :
  Gorm.chained q c
  = {| Gorm.handle := Gorm.handle q; Gorm.context := Gorm.context q;
       Gorm.model := Gorm.model q; Gorm.chain := Gorm.chain q ++ [c] |}.
Proof. reflexivity. Qed.

Lemma apply_scopes_builtin (q : Gorm.DB) (bs : list Builtin) :
  apply_scopes q (map scope_of bs)
  = {| Gorm.handle := Gorm.handle q; Gorm.context := Gorm.context q;
       Gorm.model := Gorm.model q;
       Gorm.chain := Gorm.chain q ++ flat_map clauses_of bs |}.
Proof.
  revert q. induction bs as [|b bs IH]; intro q.
  - simpl. rewrite app_nil_r. destruct q; reflexivity.
  - change (map scope_of (b :: bs)) with (scope_of b :: map scope_of bs).
    change (flat_map clauses_of (b :: bs))
      with (clauses_of b ++ flat_map clauses_of bs).
    rewrite app_assoc.
    destruct b; simpl apply_scopes; rewrite IH; simpl;
      rewrite <- ?app_assoc; reflexivity.
Qed.

(** X2.  The package's own scope constructors only chain builder calls: a
    query built by [sc] or [scWithTX] from them keeps the handle it started
    from (the transaction when one is given, the repository's handle
    otherwise), carries the context and the entity type as model, and its
    chain is the handle's chain followed by every constructor's clauses in
    the order supplied, none dropped or merged. *)
Theorem builtin_scopes_extend_chain (r : Repo) (ctx : Gorm.Context)
    (tx : option Gorm.DB) (bs : list Builtin) :
  scWithTX r tx ctx (map scope_of bs)
  = {| Gorm.handle := Gorm.handle (default_db r tx);
       Gorm.context := Some ctx;
       Gorm.model := Some (entity r);
       Gorm.chain := Gorm.chain (default_db r tx) ++ flat_map clauses_of bs |}
  /\ sc r ctx (map scope_of bs)
     = {| Gorm.handle := Gorm.handle (db r);
          Gorm.context := Some ctx;
          Gorm.model := Some (entity r);
          Gorm.chain := Gorm.chain (db r) ++ flat_map clauses_of bs |}.
Proof.
  unfold scWithTX, sc. rewrite !apply_scopes_builtin.
  split; [destruct tx|]; reflexivity.
Qed.

Section Appended.

Context {T : Type} (zero : T) {Store : Type}.
Variable exec : Call T -> Store -> Response T * Store.

(** X3.  What an operation adds to the caller's scopes comes last, whatever
    the caller's scopes do: [Exists] counts on the scoped query with
    [Limit(1)] chained after it, [FirstForUpdate] and [FindForUpdate] run on
    the scoped query with the [UPDATE] locking clause chained after it, and
    [Page], after counting on the scoped query, fetches on the scoped query
    with its limit and then its offset chained after it. *)
Theorem operation_clauses_come_last (r : Repo) (ctx : Gorm.Context)
    (t : Gorm.DB) (scopes : list Scope) (page pageSize : Z)
    (w : World T Store) :
  let ps := effective_pageSize pageSize in
  let o := GoInt.mul (GoInt.sub (effective_page page) 1) ps in
  calls (execState (Exists exec r ctx scopes) w)
  = calls w ++ [(Gorm.chained (sc r ctx scopes) (Gorm.CLimit 1), db_Count)]
  /\ calls (execState (FirstForUpdate zero exec r ctx (Some t) scopes) w)
     = calls w ++ [(Gorm.chained (scWithTX r (Some t) ctx scopes)
                      (Gorm.CLocking "UPDATE"), db_First)]
  /\ calls (execState (FindForUpdate exec r ctx (Some t) scopes) w)
     = calls w ++ [(Gorm.chained (scWithTX r (Some t) ctx scopes)
                      (Gorm.CLocking "UPDATE"), db_Find)]
  /\ calls (execState (Page exec r ctx page pageSize scopes) w)
     = calls w
       ++ (sc r ctx scopes, db_Count)
          :: match Error (reply exec (sc r ctx scopes) db_Count w) with
             | Some _ => []
             | None =>
                 [(Gorm.chained
                     (Gorm.chained (sc r ctx scopes) (Gorm.CLimit ps))
                     (Gorm.COffset o), db_Find)]
             end.
Proof.
  cbv zeta.
  assert (Hlock : scWithTX r (Some t) ctx (scopes ++ [for_update])
                  = Gorm.chained (scWithTX r (Some t) ctx scopes)
                      (Gorm.CLocking "UPDATE")).
  { unfold scWithTX. rewrite apply_scopes_app. reflexivity. }
  unfold execState.
  pose proof (run_Page exec r ctx page pageSize scopes w) as P.
  cbv zeta in P. rewrite P, sc_limit_offset. clear P.
  unfold Exists, FirstForUpdate, FindForUpdate.
  rewrite !run_bind_invoke, Hlock.
  split; [|split; [|split]].
  - destruct (Error (reply exec _ db_Count w)); reflexivity.
  - destruct (Error (reply exec _ db_First w)) as [e|];
      [destruct (errors_Is e ErrRecordNotFound)|]; reflexivity.
  - destruct (Error (reply exec _ db_Find w)); reflexivity.
  - destruct (Error (reply exec (sc r ctx scopes) db_Count w)).
    + reflexivity.
    + destruct (Error (reply exec _ db_Find _)); simpl;
        rewrite <- app_assoc; reflexivity.
Qed.

End Appended.

(* ===================================================================== *)
(** ** Further properties: nil scopes, the guard, the calls made *)
(* ===================================================================== *)

Lemma non_nil_app (l1 l2 : list Scope) :
  non_nil (l1 ++ l2) = non_nil l1 ++ non_nil l2.
Proof.
  induction l1 as [|[f|] l1 IH]; simpl.
  - reflexivity.
  - rewrite IH. reflexivity.
  - exact IH.
Qed.

Lemma apply_scopes_same_non_nil (q : Gorm.DB) (s1 s2 extra : list Scope) :
  non_nil s1 = non_nil s2 ->
  apply_scopes q (s1 ++ extra) = apply_scopes q (s2 ++ extra).
Proof.
  intro H. rewrite !apply_scopes_non_nil, !non_nil_app, H. reflexivity.
Qed.

Lemma calls_grow {T Store : Type} (w : World T Store) (c : Call T) :
  calls w ++ [c] <> calls w.
Proof.
  intro H. apply (f_equal (@List.length _)) in H.
  rewrite length_app in H. simpl in H. lia.
Qed.

Section Scoped.

Context {T : Type} (zero : T) {Store : Type}.
Variable exec : Call T -> Store -> Response T * Store.

(** X4.  The reading operations see the caller's scopes only through the
    non-nil ones: two scope lists with the same non-nil scopes in the same
    order give the same run (result, store and calls) of [First], [List],
    [Count], [Exists], [Page], [FirstForUpdate] and [FindForUpdate]. *)
Theorem reads_ignore_nil_scopes (r : Repo) (ctx : Gorm.Context)
    (tx : option Gorm.DB) (page pageSize : Z) (s1 s2 : list Scope)
    (w : World T Store) :
  non_nil s1 = non_nil s2 ->
  runState (First zero exec r ctx s1) w = runState (First zero exec r ctx s2) w
  /\ runState (List exec r ctx s1) w = runState (List exec r ctx s2) w
  /\ runState (Count exec r ctx s1) w = runState (Count exec r ctx s2) w
  /\ runState (Exists exec r ctx s1) w = runState (Exists exec r ctx s2) w
  /\ runState (Page exec r ctx page pageSize s1) w
     = runState (Page exec r ctx page pageSize s2) w
  /\ runState (FirstForUpdate zero exec r ctx tx s1) w
     = runState (FirstForUpdate zero exec r ctx tx s2) w
  /\ runState (FindForUpdate exec r ctx tx s1) w
     = runState (FindForUpdate exec r ctx tx s2) w.
Proof.
  intro Hsame.
  assert (Hsc : forall extra, sc r ctx (s1 ++ extra) = sc r ctx (s2 ++ extra)).
  { intro extra. unfold sc. apply apply_scopes_same_non_nil, Hsame. }
  assert (Htx : forall extra,
             scWithTX r tx ctx (s1 ++ extra) = scWithTX r tx ctx (s2 ++ extra)).
  { intro extra. unfold scWithTX. apply apply_scopes_same_non_nil, Hsame. }
  pose proof (Hsc []) as Hsc0. rewrite !app_nil_r in Hsc0.
  pose proof (run_Page exec r ctx page pageSize s1 w) as P1.
  pose proof (run_Page exec r ctx page pageSize s2 w) as P2.
  cbv zeta in P1, P2.
  rewrite P1, P2, Hsc, Hsc0.
  unfold First, List, Count, Exists, FirstForUpdate, FindForUpdate.
  rewrite Hsc0.
  repeat split; try reflexivity; destruct tx; try reflexivity;
    rewrite Htx; reflexivity.
Qed.

(** X5.  The guarded mutations see the scopes through their number and the
    non-nil ones: two non-empty scope lists with the same non-nil scopes in
    the same order give the same run of [UpdateColumn], [UpdateColumns] and
    [Delete]. *)
Theorem mutations_ignore_nil_scopes (r : Repo) (ctx : Gorm.Context)
    (tx : option Gorm.DB) (column : string) (value updates : Gorm.Any)
    (s1 s2 : list Scope) (w : World T Store) :
  s1 <> [] -> s2 <> [] -> non_nil s1 = non_nil s2 ->
  runState (UpdateColumn exec r ctx tx column value s1) w
  = runState (UpdateColumn exec r ctx tx column value s2) w
  /\ runState (UpdateColumns exec r ctx tx updates s1) w
     = runState (UpdateColumns exec r ctx tx updates s2) w
  /\ runState (Delete exec r ctx tx s1) w = runState (Delete exec r ctx tx s2) w.
Proof.
  intros H1 H2 Hsame.
  assert (Htx : scWithTX r tx ctx s1 = scWithTX r tx ctx s2).
  { pose proof (apply_scopes_same_non_nil
                  (Gorm.Model (Gorm.WithContext
                     (match tx with Some t => t | None => db r end) ctx)
                     (entity r)) s1 s2 [] Hsame) as E.
    rewrite !app_nil_r in E. exact E. }
  destruct s1 as [|a1 s1]; [contradiction|].
  destruct s2 as [|a2 s2]; [contradiction|].
  unfold UpdateColumn, UpdateColumns, Delete.
  rewrite !len_cons, Htx. repeat split; reflexivity.
Qed.

(** X6.  The guard is exact: [UpdateColumn], [UpdateColumns] and [Delete]
    leave the log of collaborator calls as it was exactly when the scope
    list is empty; with any scope at all they make one call, on the query
    [scWithTX] builds, and return the error the collaborator reports. *)
Theorem mutation_calls_iff_scoped (r : Repo) (ctx : Gorm.Context)
    (tx : option Gorm.DB) (column : string) (value updates : Gorm.Any)
    (scopes : list Scope) (w : World T Store) :
  (calls (execState (UpdateColumn exec r ctx tx column value scopes) w) = calls w
   <-> scopes = [])
  /\ (calls (execState (UpdateColumns exec r ctx tx updates scopes) w) = calls w
      <-> scopes = [])
  /\ (calls (execState (Delete exec r ctx tx scopes) w) = calls w
      <-> scopes = [])
  /\ (scopes <> [] ->
      let q := scWithTX r tx ctx scopes in
      runState (UpdateColumn exec r ctx tx column value scopes) w
      = (Error (reply exec q (db_Update column value) w),
         after exec q (db_Update column value) w)
      /\ runState (UpdateColumns exec r ctx tx updates scopes) w
         = (Error (reply exec q (db_Updates updates) w),
            after exec q (db_Updates updates) w)
      /\ runState (Delete exec r ctx tx scopes) w
         = (Error (reply exec q db_Delete w), after exec q db_Delete w)).
Proof.
  unfold execState, UpdateColumn, UpdateColumns, Delete.
  destruct scopes as [|s rest].
  - simpl. split; [|split; [|split]];
      try (split; intros _; reflexivity).
    intro H. contradiction.
  - rewrite len_cons, !run_bind_invoke. simpl.
    split; [|split; [|split]];
      try (split; intro H; [exfalso; exact (calls_grow w _ H) | discriminate]).
    intros _. repeat split; reflexivity.
Qed.

(** X7.  The reading operations call reading primitives only: the calls
    [First], [List], [Count], [Exists], [Page], [FirstForUpdate] and
    [FindForUpdate] add to the log are at most two, each a [First], [Find] or
    [Count]; hence over a collaborator whose reading primitives leave the
    store as it is, none of them changes the store. *)
Theorem reads_call_queries_only (r : Repo) (ctx : Gorm.Context)
    (tx : option Gorm.DB) (page pageSize : Z) (scopes : list Scope)
    (w : World T Store) :
  reads_only exec (First zero exec r ctx scopes) w
  /\ reads_only exec (List exec r ctx scopes) w
  /\ reads_only exec (Count exec r ctx scopes) w
  /\ reads_only exec (Exists exec r ctx scopes) w
  /\ reads_only exec (Page exec r ctx page pageSize scopes) w
  /\ reads_only exec (FirstForUpdate zero exec r ctx tx scopes) w
  /\ reads_only exec (FindForUpdate exec r ctx tx scopes) w.
Proof.
  unfold reads_only, execState.
  assert (Hone : forall q f, is_query f = true ->
            (exists new,
                calls (after exec q f w) = calls w ++ new
                /\ (List.length new <= 2)%nat
                /\ forallb (fun c => is_query (snd c)) new = true)
            /\ (queries_read_only exec -> store (after exec q f w) = store w)).
  { intros q f Hf. split.
    - exists [(q, f)]. simpl. rewrite Hf. repeat split. lia.
    - intro Hro. apply Hro, Hf. }
  assert (Hnone : (exists new,
                      calls w = calls w ++ new
                      /\ (List.length new <= 2)%nat
                      /\ forallb (fun c : Call T => is_query (snd c)) new = true)
                  /\ (queries_read_only exec -> store w = store w)).
  { split; [|reflexivity]. exists []. rewrite app_nil_r. simpl.
    repeat split. lia. }
  split; [|split; [|split; [|split; [|split; [|split]]]]].
  - unfold First. rewrite run_bind_invoke.
    destruct (Error (reply exec _ db_First w)) as [e|];
      [destruct (errors_Is e ErrRecordNotFound)|]; apply Hone; reflexivity.
  - unfold List. rewrite run_bind_invoke.
    destruct (Error (reply exec _ db_Find w)); apply Hone; reflexivity.
  - rewrite run_Count. apply Hone; reflexivity.
  - unfold Exists. rewrite run_bind_invoke.
    destruct (Error (reply exec _ db_Count w)); apply Hone; reflexivity.
  - pose proof (run_Page exec r ctx page pageSize scopes w) as P.
    cbv zeta in P. rewrite P. clear P.
    destruct (Error (reply exec (sc r ctx scopes) db_Count w)).
    + apply Hone; reflexivity.
    + assert (Htwo : forall q2,
                (exists new,
                    calls (after exec q2 db_Find
                             (after exec (sc r ctx scopes) db_Count w))
                    = calls w ++ new
                    /\ (List.length new <= 2)%nat
                    /\ forallb (fun c => is_query (snd c)) new = true)
                /\ (queries_read_only exec ->
                    store (after exec q2 db_Find
                             (after exec (sc r ctx scopes) db_Count w))
                    = store w)).
      { intro q2. split.
        - exists [(sc r ctx scopes, db_Count); (q2, db_Find)]. simpl.
          rewrite <- app_assoc. repeat split. lia.
        - intro Hro. simpl. rewrite (Hro q2 db_Find _ eq_refl).
          apply Hro. reflexivity. }
      destruct (Error (reply exec _ db_Find _)); apply Htwo.
  - unfold FirstForUpdate. destruct tx as [t|]; [|exact Hnone].
    rewrite run_bind_invoke.
    destruct (Error (reply exec _ db_First w)) as [e|];
      [destruct (errors_Is e ErrRecordNotFound)|]; apply Hone; reflexivity.
  - unfold FindForUpdate. destruct tx as [t|]; [|exact Hnone].
    rewrite run_bind_invoke.
    destruct (Error (reply exec _ db_Find w)); apply Hone; reflexivity.
Qed.

End Scoped.

(* ===================================================================== *)
(** ** Further properties: pagination *)
(* ===================================================================== *)

Lemma effective_page_idem (page : Z) :
  effective_page (effective_page page) = effective_page page.
Proof.
  unfold effective_page. destruct (Z.leb_spec page 0).
  - reflexivity.
  - destruct (Z.leb_spec page 0); [lia | reflexivity].
Qed.

Lemma effective_pageSize_idem (pageSize : Z) :
  effective_pageSize (effective_pageSize pageSize) = effective_pageSize pageSize.
Proof.
  pose proof (effective_pageSize_bounds pageSize) as B.
  unfold effective_pageSize at 1.
  destruct (Z.leb_spec (effective_pageSize pageSize) 0); lia.
Qed.

Lemma max_exact_page_fits (p ps : Z) :
  1 <= p <= max_exact_page -> 1 <= ps <= 1000 -> p * ps <= GoInt.max_int.
Proof.
  unfold max_exact_page, GoInt.max_int, GoInt.int_bits.
  change (2 ^ (64 - 1) - 1) with 9223372036854775807.
  change (9223372036854775807 / 1000) with 9223372036854775.
  intros Hp Hps. nia.
Qed.

Section PageMore.

Context {T : Type} {Store : Type}.
Variable exec : Call T -> Store -> Response T * Store.

(** X8.  [Page] depends on [page] and [pageSize] only through their
    normalised values: calling it with the normalised values gives the same
    run. *)
Theorem Page_normalisation_idempotent (r : Repo) (ctx : Gorm.Context)
    (page pageSize : Z) (scopes : list Scope) (w : World T Store) :
  runState (Page exec r ctx (effective_page page) (effective_pageSize pageSize)
              scopes) w
  = runState (Page exec r ctx page pageSize scopes) w.
Proof.
  pose proof (run_Page exec r ctx page pageSize scopes w) as P1.
  pose proof (run_Page exec r ctx (effective_page page)
                (effective_pageSize pageSize) scopes w) as P2.
  cbv zeta in P1, P2.
  rewrite P1, P2, effective_page_idem, effective_pageSize_idem. reflexivity.
Qed.

(** X9.  When [Page] returns an error, the result is the zero [PageResult]
    (no items, total 0, page 0, page size 0, no next page) and the error is
    the one the collaborator reported, unchanged: for the count, or, the
    count having succeeded, for the fetch. *)
Theorem Page_error_result (r : Repo) (ctx : Gorm.Context) (page pageSize : Z)
    (scopes : list Scope) (w : World T Store) (e : error) :
  snd (evalState (Page exec r ctx page pageSize scopes) w) = Some e ->
  let q1 := sc r ctx scopes in
  let q2 := sc r ctx (scopes ++ [Limit (effective_pageSize pageSize);
                                 Offset (GoInt.mul
                                           (GoInt.sub (effective_page page) 1)
                                           (effective_pageSize pageSize))]) in
  fst (evalState (Page exec r ctx page pageSize scopes) w) = PageResult.zero
  /\ (Error (reply exec q1 db_Count w) = Some e
      \/ (Error (reply exec q1 db_Count w) = None
          /\ Error (reply exec q2 db_Find (after exec q1 db_Count w)) = Some e)).
Proof.
  cbv zeta. unfold evalState.
  pose proof (run_Page exec r ctx page pageSize scopes w) as P.
  cbv zeta in P. rewrite P. clear P.
  destruct (Error (reply exec (sc r ctx scopes) db_Count w)) as [e1|].
  - simpl. intro H. split; [reflexivity|]. left. exact H.
  - destruct (Error (reply exec _ db_Find _)) as [e2|]; simpl; intro H.
    + split; [reflexivity|]. right. split; [reflexivity | exact H].
    + discriminate H.
Qed.

(** X10.  When [Page] returns no error, the result has [Page >= 1] and
    [1 <= PageSize <= 1000], and for a requested page of at most
    [math.MaxInt / 1000] nothing wraps around: [HasNext] is true iff
    [Page * PageSize < Total], and the fetch ran with the offset
    [(Page - 1) * PageSize], which is not negative. *)
Theorem Page_success_bounds (r : Repo) (ctx : Gorm.Context) (page pageSize : Z)
    (scopes : list Scope) (w w' : World T Store) (res : PageResult.t T) :
  runState (Page exec r ctx page pageSize scopes) w = ((res, None), w') ->
  1 <= PageResult.Page res
  /\ 1 <= PageResult.PageSize res <= 1000
  /\ (page <= max_exact_page ->
      (PageResult.HasNext res = true
       <-> PageResult.Page res * PageResult.PageSize res < PageResult.Total res)
      /\ 0 <= (PageResult.Page res - 1) * PageResult.PageSize res
      /\ calls w'
         = calls w
           ++ [(sc r ctx scopes, db_Count);
               (Gorm.Offset
                  (Gorm.Limit (sc r ctx scopes) (PageResult.PageSize res))
                  ((PageResult.Page res - 1) * PageResult.PageSize res),
                db_Find)]).
Proof.
  intro Hrun.
  pose proof (run_Page exec r ctx page pageSize scopes w) as P.
  cbv zeta in P. rewrite P in Hrun. clear P.
  rewrite sc_limit_offset in Hrun.
  destruct (Error (reply exec (sc r ctx scopes) db_Count w)); [discriminate|].
  destruct (Error (reply exec _ db_Find _)); [discriminate|].
  injection Hrun as Hres Hw. subst res w'. simpl.
  pose proof (effective_page_pos page) as Hp.
  pose proof (effective_pageSize_bounds pageSize) as Hps.
  split; [exact Hp|]. split; [exact Hps|].
  intro Hpage.
  assert (Hle : effective_page page <= max_exact_page).
  { unfold effective_page. destruct (Z.leb_spec page 0); [|exact Hpage].
    vm_compute. discriminate. }
  pose proof (max_exact_page_fits _ _ (conj Hp Hle) Hps) as Hfit.
  assert (Hfit' : (effective_page page - 1) * effective_pageSize pageSize
                  <= GoInt.max_int) by nia.
  rewrite (page_product_exact _ _ Hp (proj1 Hps) Hfit).
  rewrite (page_offset_exact _ _ Hp (proj1 Hps) Hfit').
  split; [apply Z.ltb_lt|]. split; [nia|].
  rewrite <- app_assoc. reflexivity.
Qed.

End PageMore.

(* ===================================================================== *)
(** ** Further properties: errors and writes *)
(* ===================================================================== *)

Lemma error_eqb_refl (e : error) : error_eqb e e = true.
Proof.
  induction e as [| | | | | |msg|msg inner IH]; simpl; try reflexivity.
  - apply String.eqb_refl.
  - rewrite String.eqb_refl, IH. reflexivity.
Qed.

Lemma errors_Is_refl (e : error) : errors_Is e e = true.
Proof.
  destruct e; simpl; try reflexivity.
  - rewrite String.eqb_refl. reflexivity.
  - rewrite String.eqb_refl, error_eqb_refl. reflexivity.
Qed.

Lemma errors_Is_wrapped (msgs : list string) (target : error) :
  errors_Is (fold_right ErrWrap target msgs) target = true.
Proof.
  induction msgs as [|m msgs IH].
  - apply errors_Is_refl.
  - simpl. rewrite IH. apply orb_true_r.
Qed.

Section Errors.

Context {T : Type} (zero : T) {Store : Type}.
Variable exec : Call T -> Store -> Response T * Store.

(** X11.  [First] and [FirstForUpdate] never hand the collaborator's
    "record not found" to the caller: whatever error they return, [errors.Is]
    does not find [gorm.ErrRecordNotFound] in it. *)
Theorem first_hides_record_not_found (r : Repo) (ctx : Gorm.Context)
    (tx : option Gorm.DB) (scopes : list Scope) (w : World T Store) (e : error) :
  (snd (evalState (First zero exec r ctx scopes) w) = Some e ->
   errors_Is e ErrRecordNotFound = false)
  /\ (snd (evalState (FirstForUpdate zero exec r ctx tx scopes) w) = Some e ->
      errors_Is e ErrRecordNotFound = false).
Proof.
  unfold evalState, First, FirstForUpdate. split.
  - rewrite run_bind_invoke.
    destruct (Error (reply exec _ db_First w)) as [e1|];
      [destruct (errors_Is e1 ErrRecordNotFound) eqn:I|]; simpl; intro H.
    + injection H as <-. reflexivity.
    + injection H as <-. exact I.
    + discriminate H.
  - destruct tx as [t|].
    + rewrite run_bind_invoke.
      destruct (Error (reply exec _ db_First w)) as [e1|];
        [destruct (errors_Is e1 ErrRecordNotFound) eqn:I|]; simpl; intro H.
      * injection H as <-. reflexivity.
      * injection H as <-. exact I.
      * discriminate H.
    + simpl. intro H. injection H as <-. reflexivity.
Qed.

(** X12.  The not-found mapping looks through wrapping: when the collaborator
    reports [gorm.ErrRecordNotFound] wrapped any number of times, [First] and
    [FirstForUpdate] (with a transaction) return the not-found error. *)
Theorem first_unwraps_record_not_found (r : Repo) (ctx : Gorm.Context)
    (t : Gorm.DB) (scopes : list Scope) (w : World T Store)
    (msgs : list string) :
  let err := fold_right ErrWrap ErrRecordNotFound msgs in
  (Error (reply exec (sc r ctx scopes) db_First w) = Some err ->
   snd (evalState (First zero exec r ctx scopes) w) = Some ErrNotFound)
  /\ (Error (reply exec (scWithTX r (Some t) ctx (scopes ++ [for_update]))
               db_First w) = Some err ->
      runState (FirstForUpdate zero exec r ctx (Some t) scopes) w
      = ((zero, Some ErrNotFound),
         after exec (scWithTX r (Some t) ctx (scopes ++ [for_update]))
           db_First w)).
Proof.
  cbv zeta. unfold evalState, First, FirstForUpdate.
  rewrite !run_bind_invoke.
  split; intros ->; rewrite errors_Is_wrapped; reflexivity.
Qed.

(** X13.  On a collaborator error the operations that do not map errors
    return it unchanged, [gorm.ErrRecordNotFound] included, and discard what
    the collaborator wrote to the destination: [List] and [FindForUpdate]
    return no rows, [Count] returns 0 and [Exists] returns false. *)
Theorem errors_discard_results (r : Repo) (ctx : Gorm.Context)
    (t : Gorm.DB) (scopes : list Scope) (w : World T Store) (err : error) :
  (Error (reply exec (sc r ctx scopes) db_Find w) = Some err ->
   evalState (List exec r ctx scopes) w = ([], Some err))
  /\ (Error (reply exec (sc r ctx scopes) db_Count w) = Some err ->
      evalState (Count exec r ctx scopes) w = (0, Some err))
  /\ (Error (reply exec (Gorm.Limit (sc r ctx scopes) 1) db_Count w) = Some err ->
      evalState (Exists exec r ctx scopes) w = (false, Some err))
  /\ (Error (reply exec (scWithTX r (Some t) ctx (scopes ++ [for_update]))
               db_Find w) = Some err ->
      evalState (FindForUpdate exec r ctx (Some t) scopes) w = ([], Some err)).
Proof.
  unfold evalState, List, Count, Exists, FindForUpdate.
  rewrite !run_bind_invoke.
  repeat split; intros ->; reflexivity.
Qed.

(** X14.  [BatchInsert] on a non-empty list hands all the entities to the
    collaborator in one batched-insert call whose chunk size is never 0: it
    is the first optional [batchSize] when that is not 0 (negative values
    included, further optional arguments ignored) and 1000 otherwise. *)
Theorem batch_insert_chunk_never_zero (r : Repo) (ctx : Gorm.Context)
    (tx : option Gorm.DB) (ents : list T) (batchSize : list Z)
    (w : World T Store) :
  ents <> [] ->
  exists n,
    calls (execState (BatchInsert exec r ctx tx ents batchSize) w)
    = calls w ++ [(Gorm.WithContext (default_db r tx) ctx,
                   db_CreateInBatches ents n)]
    /\ n <> 0
    /\ n = (if hd 0 batchSize =? 0 then 1000 else hd 0 batchSize).
Proof.
  intro Hne. destruct ents as [|e ents]; [contradiction|].
  unfold execState, BatchInsert. rewrite len_cons, run_bind_invoke. simpl.
  destruct batchSize as [|b0 rest]; simpl.
  - exists 1000. repeat split. discriminate.
  - destruct (Z.eqb_spec b0 0) as [->|Hb].
    + exists 1000. repeat split. discriminate.
    + exists b0. repeat split. exact Hb.
Qed.

(** X15.  Every write runs on the transaction when one is given and on the
    repository's handle otherwise: [Create], [Update], [BatchInsert] on a
    non-empty list and, with a non-empty list of scopes from the package's
    constructors, [UpdateColumn], [UpdateColumns] and [Delete] make exactly
    one collaborator call, of a writing primitive, on a query bound to that
    handle and carrying the caller's context, and return its error. *)
Theorem writes_run_on_given_handle (r : Repo) (ctx : Gorm.Context)
    (tx : option Gorm.DB) (ent : T) (ents : list T) (batchSize : list Z)
    (column : string) (value updates : Gorm.Any) (bs : list Builtin)
    (w : World T Store) :
  ents <> [] -> bs <> [] ->
  let h := match tx with Some t => t | None => db r end in
  single_write exec (Create exec r ctx tx ent) w h ctx
  /\ single_write exec (Update exec r ctx tx ent) w h ctx
  /\ single_write exec (BatchInsert exec r ctx tx ents batchSize) w h ctx
  /\ single_write exec
       (UpdateColumn exec r ctx tx column value (map scope_of bs)) w h ctx
  /\ single_write exec
       (UpdateColumns exec r ctx tx updates (map scope_of bs)) w h ctx
  /\ single_write exec (Delete exec r ctx tx (map scope_of bs)) w h ctx.
Proof.
  intros Hents Hbs. cbv zeta.
  destruct ents as [|e ents]; [contradiction|].
  destruct bs as [|b bs]; [contradiction|].
  assert (Hq : Gorm.handle (scWithTX r tx ctx (map scope_of (b :: bs)))
               = Gorm.handle (match tx with Some t => t | None => db r end)
               /\ Gorm.context (scWithTX r tx ctx (map scope_of (b :: bs)))
                  = Some ctx).
  { unfold scWithTX. rewrite apply_scopes_builtin. split; reflexivity. }
  unfold single_write, Create, Update, BatchInsert, UpdateColumn,
    UpdateColumns, Delete.
  change (map scope_of (b :: bs)) with (scope_of b :: map scope_of bs) at 1 3 5.
  rewrite !len_cons, !run_bind_invoke.
  split; [|split; [|split; [|split; [|split]]]];
    eexists _, _; (split; [reflexivity|]); (split; [reflexivity|]);
    try exact Hq; destruct tx; split; reflexivity.
Qed.

End Errors.

(* ===================================================================== *)
(** ** Further properties: concrete runs *)
(* ===================================================================== *)

Lemma Memory_queries_read_only : queries_read_only Memory.exec.
Proof.
  intros q f s Hf. unfold Memory.exec.
  destruct (Memory.valid q); simpl; [|reflexivity].
  destruct f; try discriminate Hf; try reflexivity.
  destruct (Memory.skipped q (Memory.matching q s)); reflexivity.
Qed.

Lemma reads_ignore_nil_scopes_witness :
  let by_id := Where (Gorm.AAtom (Gorm.VString "id = ?"))
                     [Gorm.AAtom (Gorm.VInt 2)] in
  let w := Memory.world (Memory.users 3) in
  non_nil [None; by_id] = non_nil [by_id; None]
  /\ runState (List Memory.exec Memory.repo Memory.ctx0 [None; by_id]) w
     = runState (List Memory.exec Memory.repo Memory.ctx0 [by_id; None]) w.
Proof.
  cbv zeta. split; [reflexivity|].
  exact (proj1 (proj2
    (reads_ignore_nil_scopes Memory.zero_User Memory.exec Memory.repo
       Memory.ctx0 None 1 10
       [None; Where (Gorm.AAtom (Gorm.VString "id = ?"))
                    [Gorm.AAtom (Gorm.VInt 2)]]
       [Where (Gorm.AAtom (Gorm.VString "id = ?"))
              [Gorm.AAtom (Gorm.VInt 2)]; None]
       (Memory.world (Memory.users 3)) eq_refl))).
Defined.

Lemma mutations_ignore_nil_scopes_witness :
  let by_id := Where (Gorm.AAtom (Gorm.VString "id = ?"))
                     [Gorm.AAtom (Gorm.VInt 2)] in
  let w := Memory.world (Memory.users 3) in
  [None; by_id] <> [] /\ [by_id] <> []
  /\ non_nil [None; by_id] = non_nil [by_id]
  /\ runState (Delete Memory.exec Memory.repo Memory.ctx0 None [None; by_id]) w
     = runState (Delete Memory.exec Memory.repo Memory.ctx0 None [by_id]) w.
Proof.
  cbv zeta.
  assert (H1 : [None; Where (Gorm.AAtom (Gorm.VString "id = ?"))
                            [Gorm.AAtom (Gorm.VInt 2)]] <> [])
    by discriminate.
  assert (H2 : [Where (Gorm.AAtom (Gorm.VString "id = ?"))
                      [Gorm.AAtom (Gorm.VInt 2)]] <> [])
    by discriminate.
  split; [exact H1|]. split; [exact H2|]. split; [reflexivity|].
  exact (proj2 (proj2
    (mutations_ignore_nil_scopes Memory.exec Memory.repo Memory.ctx0 None
       "age" (Gorm.AAtom (Gorm.VInt 1)) (Gorm.AMap [])
       _ _ (Memory.world (Memory.users 3)) H1 H2 eq_refl))).
Defined.

Lemma mutation_calls_iff_scoped_witness :
  let by_id := Where (Gorm.AAtom (Gorm.VString "id = ?"))
                     [Gorm.AAtom (Gorm.VInt 2)] in
  let w := Memory.world (Memory.users 3) in
  [by_id] <> []
  /\ runState (Delete Memory.exec Memory.repo Memory.ctx0 None [by_id]) w
     = (None,
        {| store := [ {| Memory.ID := 1; Memory.Age := 21; Memory.Deleted := false |};
                      {| Memory.ID := 2; Memory.Age := 22; Memory.Deleted := true |};
                      {| Memory.ID := 3; Memory.Age := 23; Memory.Deleted := false |} ];
           calls := [(scWithTX Memory.repo None Memory.ctx0 [by_id], db_Delete)] |}).
Proof.
  cbv zeta.
  assert (H1 : [Where (Gorm.AAtom (Gorm.VString "id = ?"))
                      [Gorm.AAtom (Gorm.VInt 2)]] <> [])
    by discriminate.
  split; [exact H1|].
  rewrite (proj2 (proj2 (proj2 (proj2 (proj2
    (mutation_calls_iff_scoped Memory.exec Memory.repo Memory.ctx0 None
       "age" (Gorm.AAtom (Gorm.VInt 1)) (Gorm.AMap [])
       [Where (Gorm.AAtom (Gorm.VString "id = ?")) [Gorm.AAtom (Gorm.VInt 2)]]
       (Memory.world (Memory.users 3))))) H1))).
  reflexivity.
Defined.

Lemma reads_call_queries_only_witness :
  queries_read_only Memory.exec
  /\ store (execState (Page Memory.exec Memory.repo Memory.ctx0 1 10 [])
              (Memory.world (Memory.users 25)))
     = Memory.users 25.
Proof.
  split; [exact Memory_queries_read_only|].
  destruct (reads_call_queries_only Memory.zero_User Memory.exec Memory.repo
              Memory.ctx0 None 1 10 [] (Memory.world (Memory.users 25)))
    as (_ & _ & _ & _ & [_ Hstore] & _).
  exact (Hstore Memory_queries_read_only).
Defined.

Lemma Page_error_result_witness :
  let scopes := [Where (Gorm.AAtom (Gorm.VString "invalid_column = ?"))
                       [Gorm.AAtom (Gorm.VString "value")]] in
  let w := Memory.world (Memory.users 5) in
  snd (evalState (Page Memory.exec Memory.repo Memory.ctx0 1 10 scopes) w)
  = Some (ErrOther "no such column")
  /\ fst (evalState (Page Memory.exec Memory.repo Memory.ctx0 1 10 scopes) w)
     = PageResult.zero.
Proof.
  cbv zeta. split; [reflexivity|].
  exact (proj1
    (Page_error_result Memory.exec Memory.repo Memory.ctx0 1 10
       [Where (Gorm.AAtom (Gorm.VString "invalid_column = ?"))
              [Gorm.AAtom (Gorm.VString "value")]]
       (Memory.world (Memory.users 5)) (ErrOther "no such column") eq_refl)).
Defined.

Lemma Page_success_bounds_witness :
  let run := runState (Page Memory.exec Memory.repo Memory.ctx0 3 10 [])
               (Memory.world (Memory.users 25)) in
  run = ((fst (fst run), None), snd run)
  /\ 3 <= max_exact_page
  /\ (PageResult.HasNext (fst (fst run)) = true
      <-> PageResult.Page (fst (fst run)) * PageResult.PageSize (fst (fst run))
          < PageResult.Total (fst (fst run)))
  /\ List.length (PageResult.Items (fst (fst run))) = 5%nat.
Proof.
  cbv zeta.
  assert (Hrun : runState (Page Memory.exec Memory.repo Memory.ctx0 3 10 [])
                   (Memory.world (Memory.users 25))
                 = ((fst (fst (runState (Page Memory.exec Memory.repo
                                           Memory.ctx0 3 10 [])
                                 (Memory.world (Memory.users 25)))), None),
                    snd (runState (Page Memory.exec Memory.repo Memory.ctx0 3 10 [])
                           (Memory.world (Memory.users 25)))))
    by reflexivity.
  assert (Hpage : 3 <= max_exact_page) by (vm_compute; discriminate).
  split; [exact Hrun|]. split; [exact Hpage|].
  split; [|reflexivity].
  destruct (Page_success_bounds Memory.exec Memory.repo Memory.ctx0 3 10 []
              (Memory.world (Memory.users 25)) _ _ Hrun) as (_ & _ & Hexact).
  exact (proj1 (Hexact Hpage)).
Defined.

Lemma first_hides_record_not_found_witness :
  let scopes := [Where (Gorm.AAtom (Gorm.VString "id = ?"))
                       [Gorm.AAtom (Gorm.VInt 9)]] in
  let w := Memory.world (Memory.users 3) in
  snd (evalState (First Memory.zero_User Memory.exec Memory.repo Memory.ctx0
                    scopes) w) = Some ErrNotFound
  /\ errors_Is ErrNotFound ErrRecordNotFound = false.
Proof.
  cbv zeta. split; [reflexivity|].
  exact (proj1
    (first_hides_record_not_found Memory.zero_User Memory.exec Memory.repo
       Memory.ctx0 None
       [Where (Gorm.AAtom (Gorm.VString "id = ?")) [Gorm.AAtom (Gorm.VInt 9)]]
       (Memory.world (Memory.users 3)) ErrNotFound) eq_refl).
Defined.

Lemma first_unwraps_record_not_found_witness :
  let scopes := [Where (Gorm.AAtom (Gorm.VString "id = ?"))
                       [Gorm.AAtom (Gorm.VInt 9)]] in
  let w := Memory.world (Memory.users 3) in
  Error (reply wrapping_exec (sc Memory.repo Memory.ctx0 scopes) db_First w)
  = Some (fold_right ErrWrap ErrRecordNotFound ["query failed"])
  /\ snd (evalState (First Memory.zero_User wrapping_exec Memory.repo
                       Memory.ctx0 scopes) w) = Some ErrNotFound.
Proof.
  cbv zeta. split; [reflexivity|].
  exact (proj1
    (first_unwraps_record_not_found Memory.zero_User wrapping_exec Memory.repo
       Memory.ctx0 Memory.tx1
       [Where (Gorm.AAtom (Gorm.VString "id = ?")) [Gorm.AAtom (Gorm.VInt 9)]]
       (Memory.world (Memory.users 3)) ["query failed"]) eq_refl).
Defined.

Lemma errors_discard_results_witness :
  let scopes := [Where (Gorm.AAtom (Gorm.VString "invalid_column = ?"))
                       [Gorm.AAtom (Gorm.VString "value")]] in
  let w := Memory.world (Memory.users 5) in
  Error (reply Memory.exec (sc Memory.repo Memory.ctx0 scopes) db_Find w)
  = Some (ErrOther "no such column")
  /\ evalState (List Memory.exec Memory.repo Memory.ctx0 scopes) w
     = ([], Some (ErrOther "no such column")).
Proof.
  cbv zeta. split; [reflexivity|].
  exact (proj1
    (errors_discard_results Memory.exec Memory.repo Memory.ctx0 Memory.tx1
       [Where (Gorm.AAtom (Gorm.VString "invalid_column = ?"))
              [Gorm.AAtom (Gorm.VString "value")]]
       (Memory.world (Memory.users 5)) (ErrOther "no such column")) eq_refl).
Defined.

Lemma batch_insert_chunk_never_zero_witness :
  Memory.users 2 <> []
  /\ exists n,
       calls (execState (BatchInsert Memory.exec Memory.repo Memory.ctx0 None
                           (Memory.users 2) [-5; 7])
                (Memory.world []))
       = calls (Memory.world [])
         ++ [(Gorm.WithContext (default_db Memory.repo None) Memory.ctx0,
              db_CreateInBatches (Memory.users 2) n)]
       /\ n <> 0
       /\ n = (if hd 0 [-5; 7] =? 0 then 1000 else hd 0 [-5; 7]).
Proof.
  assert (Hne : Memory.users 2 <> []) by discriminate.
  split; [exact Hne|].
  exact (batch_insert_chunk_never_zero Memory.exec Memory.repo Memory.ctx0 None
           (Memory.users 2) [-5; 7] (Memory.world []) Hne).
Defined.

Lemma writes_run_on_given_handle_witness :
  Memory.users 2 <> [] /\ [BWhereEq [("id", Gorm.VInt 2)]] <> []
  /\ single_write Memory.exec
       (Delete Memory.exec Memory.repo Memory.ctx0 (Some Memory.tx1)
          (map scope_of [BWhereEq [("id", Gorm.VInt 2)]]))
       (Memory.world (Memory.users 3)) Memory.tx1 Memory.ctx0.
Proof.
  assert (Hne : Memory.users 2 <> []) by discriminate.
  assert (Hbs : [BWhereEq [("id", Gorm.VInt 2)]] <> []) by discriminate.
  split; [exact Hne|]. split; [exact Hbs|].
  exact (proj2 (proj2 (proj2 (proj2 (proj2
    (writes_run_on_given_handle Memory.exec Memory.repo Memory.ctx0
       (Some Memory.tx1) Memory.zero_User (Memory.users 2) []
       "age" (Gorm.AAtom (Gorm.VInt 1)) (Gorm.AMap [])
       [BWhereEq [("id", Gorm.VInt 2)]] (Memory.world (Memory.users 3))
       Hne Hbs)))))).
Defined.

(* ===================================================================== *)
(** ** Further properties: operations in terms of one another *)
(* ===================================================================== *)

Section Composition.

Context {T : Type} {Store : Type}.
Variable exec : Call T -> Store -> Response T * Store.

(** X16.  [Exists] is [Count] with the scope [Limit(1)] added after the
    caller's scopes, read as a boolean: the same collaborator call, the same
    error, and the result [count > 0]. *)
Theorem Exists_is_Count_with_Limit (r : Repo) (ctx : Gorm.Context)
    (scopes : list Scope) (w : World T Store) :
  runState (Exists exec r ctx scopes) w
  = (let '((n, err), w') := runState (Count exec r ctx (scopes ++ [Limit 1])) w in
     ((n >? 0, err), w')).
Proof.
  rewrite run_Count. unfold Exists. rewrite run_bind_invoke.
  assert (Hq : sc r ctx (scopes ++ [Limit 1]) = Gorm.Limit (sc r ctx scopes) 1).
  { unfold sc. rewrite apply_scopes_app. reflexivity. }
  rewrite Hq.
  destruct (Error (reply exec (Gorm.Limit (sc r ctx scopes) 1) db_Count w));
    reflexivity.
Qed.

(** X17.  [Page] is [Count] on the caller's scopes followed, when the count
    succeeds, by [List] on the same scopes with [Limit(pageSize')] and
    [Offset(o)] added after them: the same calls in the same order, the first
    error met is returned, and on success the rows of [List] are [Items] and
    the count is [Total]. *)
Theorem Page_is_Count_then_List (r : Repo) (ctx : Gorm.Context)
    (page pageSize : Z) (scopes : list Scope) (w : World T Store) :
  let p := effective_page page in
  let ps := effective_pageSize pageSize in
  let o := GoInt.mul (GoInt.sub p 1) ps in
  runState (Page exec r ctx page pageSize scopes) w
  = (let '((total, err), w1) := runState (Count exec r ctx scopes) w in
     match err with
     | Some e => ((PageResult.zero, Some e), w1)
     | None =>
         let '((items, err'), w2) :=
           runState (List exec r ctx (scopes ++ [Limit ps; Offset o])) w1 in
         match err' with
         | Some e => ((PageResult.zero, Some e), w2)
         | None =>
             (({| PageResult.Items := items;
                  PageResult.Total := total;
                  PageResult.Page := p;
                  PageResult.PageSize := ps;
                  PageResult.HasNext := GoInt.mul p ps <? total |}, None), w2)
         end
     end).
Proof.
  cbv zeta.
  pose proof (run_Page exec r ctx page pageSize scopes w) as P.
  cbv zeta in P. rewrite P. clear P.
  rewrite run_Count.
  destruct (Error (reply exec (sc r ctx scopes) db_Count w)); [reflexivity|].
  unfold List. rewrite run_bind_invoke.
  destruct (Error (reply exec _ db_Find _)); reflexivity.
Qed.

End Composition.
